(** * OpenStack provider: network and clustering-profile resource handlers

    A shallow embedding of
    [openstack/resource_openstack_networking_network_v2.go] and of the
    clustering-profile handlers that follow it in the same source file.

    The handlers talk to a remote control plane through the gophercloud
    SDK.  The SDK, the Terraform helper library and the remote itself are
    external collaborators: every SDK request is an event of a small
    free monad [Prog], and a [Remote] interprets the events over a state
    of its own.  A handler is therefore a tree of requests; what it does
    to a particular remote is obtained with [run].

    Logging ([log.Printf]) has no influence on any result and is left out. *)

From Stdlib Require Import ZArith Lia.
From stdpp Require Import gmap strings list.

Set Warnings "-register-all".
Local Open Scope string_scope.
Local Open Scope Z_scope.

(* ===================================================================== *)
(** ** Go values: errors, results, durations                              *)
(* ===================================================================== *)

(** The fields of [gophercloud.ErrUnexpectedResponseCode] the handlers
    look at ([Actual]) plus the response body. *)
Record UnexpectedResponseCode := {
  Actual : Z;
  Body : string
}.

(** A Go [error] value, tagged by its dynamic type.  A type assertion
    [err.(T)] succeeds exactly on the constructor for [T]. *)
Inductive error : Type :=
| ErrDefault404 (e : UnexpectedResponseCode)
    (* gophercloud.ErrDefault404, which embeds ErrUnexpectedResponseCode *)
| ErrUnexpectedResponseCode (e : UnexpectedResponseCode)
    (* gophercloud.ErrUnexpectedResponseCode *)
| NumError (Func Num : string)
    (* *strconv.NumError with Err = strconv.ErrSyntax *)
| Errorf (format : string) (args : list error)
    (* the value of fmt.Errorf(format, args...) *)
| OtherError (text : string).
    (* any other dynamic type: transport, authentication, ... *)

(** A Go result pair [(value, err)]: [Ok v] is [(v, nil)]. *)
Inductive result (A : Type) : Type :=
| Ok (a : A)
| Err (e : error).
Arguments Ok {A} a.
Arguments Err {A} e.

(** [time.Duration]: a count of nanoseconds. *)
Definition Duration := Z.
Definition Second : Duration := 1000000000.
Definition Minute : Duration := 60 * Second.

(** The typed 404 signal of the SDK, as the handlers test for it:
    [_, ok := err.(gophercloud.ErrDefault404)] *)
Definition isErrDefault404 (err : error) : bool :=
  match err with
  | ErrDefault404 _ => true
  | _ => false
  end.

(** The 409 signal, as the delete-mode closure tests for it:
    [errCode, ok := err.(gophercloud.ErrUnexpectedResponseCode)] followed
    by [errCode.Actual == 409]. *)
Definition isConflict409 (err : error) : bool :=
  match err with
  | ErrUnexpectedResponseCode errCode => (Actual errCode =? 409)%Z
  | _ => false
  end.

(** [strconv.ParseBool] of the Go standard library: it accepts exactly
    1, t, T, TRUE, true, True, 0, f, F, FALSE, false, False. *)
Definition strconv_ParseBool (str : string) : result bool :=
  if (str =? "1")%string || (str =? "t")%string || (str =? "T")%string
     || (str =? "TRUE")%string || (str =? "true")%string
     || (str =? "True")%string
  then Ok true
  else if (str =? "0")%string || (str =? "f")%string || (str =? "F")%string
          || (str =? "FALSE")%string || (str =? "false")%string
          || (str =? "False")%string
  then Ok false
  else Err (NumError "ParseBool" str).

(** [strconv.FormatBool] *)
Definition strconv_FormatBool (b : bool) : string :=
  if b then "true" else "false".

(** A dynamically typed Go value ([interface{}]) as the schema layer
    stores it; maps keep their entries as an association list. *)
Inductive Value : Type :=
| VString (s : string)
| VBool (b : bool)
| VInt (z : Z)
| VTime (t : Z)
| VList (l : list Value)
| VMap (m : list (string * Value)).

(** [m[key]] on a [map[string]interface{}] *)
Fixpoint map_index (m : list (string * Value)) (key : string)
  : option Value :=
  match m with
  | [] => None
  | (k, v) :: m' => if (k =? key)%string then Some v else map_index m' key
  end.

(** [reflect.DeepEqual] on stored values. *)
Fixpoint Value_eqb (a b : Value) : bool :=
  match a, b with
  | VString x, VString y => (x =? y)%string
  | VBool x, VBool y => Bool.eqb x y
  | VInt x, VInt y => (x =? y)%Z
  | VTime x, VTime y => (x =? y)%Z
  | VList xs, VList ys =>
    (fix all2 (xs ys : list Value) : bool :=
       match xs, ys with
       | [], [] => true
       | x :: xs', y :: ys' => Value_eqb x y && all2 xs' ys'
       | _, _ => false
       end) xs ys
  | VMap xs, VMap ys =>
    (fix all2 (xs ys : list (string * Value)) : bool :=
       match xs, ys with
       | [], [] => true
       | (k, x) :: xs', (k', y) :: ys' =>
         (k =? k')%string && Value_eqb x y && all2 xs' ys'
       | _, _ => false
       end) xs ys
  | _, _ => false
  end.

(* ===================================================================== *)
(** ** SDK data                                                           *)
(* ===================================================================== *)

Record ServiceClient := {
  Endpoint : string
}.

Module networks.
(** [networks.Network], the fields the handlers read. *)
Record Network := {
  ID : string;
  Name : string;
  Description : string;
  AdminStateUp : bool;
  Status : string;
  TenantID : string;
  Shared : bool;
  AvailabilityZoneHints : list string;
  Tags : list string
}.

(** [networks.CreateOpts]; pointer fields are options. *)
Record CreateOpts := {
  co_AdminStateUp : option bool;
  co_Name : string;
  co_Description : string;
  co_Shared : option bool;
  co_TenantID : string;
  co_AvailabilityZoneHints : list string
}.

(** [networks.UpdateOpts] *)
Record UpdateOpts := {
  uo_AdminStateUp : option bool;
  uo_Name : string;
  uo_Description : option string;
  uo_Shared : option bool
}.

(** Assignments to one field of an options struct. *)
Definition set_co_AdminStateUp (o : CreateOpts) (v : option bool) :=
  {| co_AdminStateUp := v; co_Name := co_Name o;
     co_Description := co_Description o; co_Shared := co_Shared o;
     co_TenantID := co_TenantID o;
     co_AvailabilityZoneHints := co_AvailabilityZoneHints o |}.
Definition set_co_Shared (o : CreateOpts) (v : option bool) :=
  {| co_AdminStateUp := co_AdminStateUp o; co_Name := co_Name o;
     co_Description := co_Description o; co_Shared := v;
     co_TenantID := co_TenantID o;
     co_AvailabilityZoneHints := co_AvailabilityZoneHints o |}.
Definition set_uo_AdminStateUp (o : UpdateOpts) (v : option bool) :=
  {| uo_AdminStateUp := v; uo_Name := uo_Name o;
     uo_Description := uo_Description o; uo_Shared := uo_Shared o |}.
Definition set_uo_Name (o : UpdateOpts) (v : string) :=
  {| uo_AdminStateUp := uo_AdminStateUp o; uo_Name := v;
     uo_Description := uo_Description o; uo_Shared := uo_Shared o |}.
Definition set_uo_Description (o : UpdateOpts) (v : option string) :=
  {| uo_AdminStateUp := uo_AdminStateUp o; uo_Name := uo_Name o;
     uo_Description := v; uo_Shared := uo_Shared o |}.
Definition set_uo_Shared (o : UpdateOpts) (v : option bool) :=
  {| uo_AdminStateUp := uo_AdminStateUp o; uo_Name := uo_Name o;
     uo_Description := uo_Description o; uo_Shared := v |}.

(** The zero value of [UpdateOpts]. *)
Definition UpdateOpts_zero : UpdateOpts :=
  {| uo_AdminStateUp := None; uo_Name := ""; uo_Description := None;
     uo_Shared := None |}.
End networks.

Module provider.
(** [provider.Segment] *)
Record Segment := {
  PhysicalNetwork : string;
  NetworkType : string;
  SegmentationID : Z
}.
End provider.

Module external.
(** The body read by [ExtractInto] in Read: the anonymous struct that
    embeds [networks.Network] and [external.NetworkExternalExt]. *)
Record NetworkWithExt := {
  Network : networks.Network;
  External : bool
}.
End external.

Module profiles.
(** [profiles.Spec] and [profiles.Profile] *)
Record Spec := {
  Type_ : string;
  Version : string;
  Properties : list (string * Value)
}.

Record Profile := {
  CreatedAt : Z;
  Domain : string;
  ID : string;
  Metadata : list (string * Value);
  Name : string;
  Project : string;
  Spec_ : Spec;
  Type' : string;
  UpdatedAt : Z;
  User : string
}.

(** [profiles.CreateOpts], the fields Create fills in. *)
Record CreateOpts := {
  co_Name : string;
  co_Spec : Spec
}.
End profiles.

(** The request bodies accepted by [networks.Create]: the provider's own
    [NetworkCreateOpts] (the SDK options plus value specs) and the two SDK
    wrappers that each embed another builder. *)
Inductive CreateOptsBuilder : Type :=
| NetworkCreateOpts (opts : networks.CreateOpts)
    (ValueSpecs : list (string * string))
| provider_CreateOptsExt (b : CreateOptsBuilder)
    (Segments : list provider.Segment)
| external_CreateOptsExt (b : CreateOptsBuilder) (External : option bool).

(** The request bodies accepted by [networks.Update]. *)
Inductive UpdateOptsBuilder : Type :=
| networks_UpdateOpts (opts : networks.UpdateOpts)
| external_UpdateOptsExt (b : UpdateOptsBuilder) (External : option bool).

(* ===================================================================== *)
(** ** Requests to the remote, and programs that issue them               *)
(* ===================================================================== *)

(** One constructor per SDK request the handlers issue, indexed by the
    type of the answer; [time_Sleep] is the poller's suspension point. *)
Inductive Call : Type -> Type :=
| networks_Get (c : ServiceClient) (id : string)
    : Call (result external.NetworkWithExt)
| networks_Create (c : ServiceClient) (opts : CreateOptsBuilder)
    : Call (result networks.Network)
| networks_Update (c : ServiceClient) (id : string)
    (opts : UpdateOptsBuilder)
    : Call (result networks.Network)
| networks_Delete (c : ServiceClient) (id : string)
    : Call (option error)
| attributestags_ReplaceAll (c : ServiceClient) (resourceType id : string)
    (tags : list string)
    : Call (result (list string))
| profiles_Get (c : ServiceClient) (id : string)
    : Call (result profiles.Profile)
| profiles_Create (c : ServiceClient) (opts : profiles.CreateOpts)
    : Call (result profiles.Profile)
| profiles_Delete (c : ServiceClient) (id : string)
    : Call (option error)
| time_Sleep (d : Duration)
    : Call unit.

(** Requests that change the remote resource: everything but the two
    reads and the sleep. *)
Definition mutating {R : Type} (c : Call R) : bool :=
  match c with
  | networks_Get _ _ => false
  | profiles_Get _ _ => false
  | time_Sleep _ => false
  | _ => true
  end.

(** A program: either a finished value or a request and what to do with
    its answer. *)
Inductive Prog (A : Type) : Type :=
| Ret (a : A)
| Vis {R : Type} (c : Call R) (k : R -> Prog A).
Arguments Ret {A} a.
Arguments Vis {A R} c k.

Fixpoint bind {A B : Type} (p : Prog A) (f : A -> Prog B) : Prog B :=
  match p with
  | Ret a => f a
  | Vis c k => Vis c (fun r => bind (k r) f)
  end.

Definition call {R : Type} (c : Call R) : Prog R := Vis c Ret.

Notation "x <- c1 ;; c2" := (bind c1 (fun x => c2))
  (at level 100, c1 at next level, right associativity).

(** A remote: a state and an answer to every request. *)
Record Remote (S : Type) := {
  handle : forall R : Type, Call R -> S -> R * S
}.
Arguments handle {S} _ {R} _ _.

Fixpoint run {S A : Type} (h : Remote S) (p : Prog A) (s : S) : A * S :=
  match p with
  | Ret a => (a, s)
  | Vis c k => let '(r, s') := handle h c s in run h (k r) s'
  end.

(** The requests a program issues against a given remote, in order. *)
Inductive AnyCall : Type :=
| aCall {R : Type} (c : Call R).

Fixpoint trace {S A : Type} (h : Remote S) (p : Prog A) (s : S)
  : list AnyCall :=
  match p with
  | Ret _ => []
  | Vis c k => let '(r, s') := handle h c s in aCall c :: trace h (k r) s'
  end.

(** [ReadOnly p]: whatever the remote answers, [p] issues no mutating
    request. *)
Fixpoint ReadOnly {A : Type} (p : Prog A) : Prop :=
  match p with
  | Ret _ => True
  | Vis c k => mutating c = false /\ forall r, ReadOnly (k r)
  end.

(** The answer to a [networks.Create] request, if [c] is one. *)
Definition create_result {S R : Type} (c : Call R)
  : R -> S -> option (result networks.Network * S) :=
  match c in Call R return R -> S -> option (result networks.Network * S) with
  | networks_Create _ _ => fun r s => Some (r, s)
  | _ => fun _ _ => None
  end.

(** The answer the first [networks.Create] request of a program gets
    from the remote, and the remote right after it; [None] when the
    program issues no such request. *)
Fixpoint create_answer {S A : Type} (h : Remote S) (p : Prog A) (s : S)
  : option (result networks.Network * S) :=
  match p with
  | Ret _ => None
  | Vis c k =>
    let '(r, s') := handle h c s in
    match create_result c r s' with
    | Some a => Some a
    | None => create_answer h (k r) s'
    end
  end.

(* ===================================================================== *)
(** ** The refresh closures                                               *)
(* ===================================================================== *)

(** What a [resource.StateRefreshFunc] returns:
    [(interface{}, string, error)]. *)
Definition RefreshResult : Type :=
  option networks.Network * string * option error.

Definition reported_state (r : RefreshResult) : string := snd (fst r).
Definition reported_error (r : RefreshResult) : option error := snd r.

(** [networks.Get(client, id).Extract()] *)
Definition networks_Get_Extract (c : ServiceClient) (id : string)
  : Prog (result networks.Network) :=
  r <- call (networks_Get c id) ;;
  match r with
  | Ok body => Ret (Ok (external.Network body))
  | Err err => Ret (Err err)
  end.

Definition waitForNetworkActive (networkingClient : ServiceClient)
  (networkId : string) : Prog RefreshResult :=
  r <- networks_Get_Extract networkingClient networkId ;;
  match r with
  | Err err => Ret (None, "", Some err)
  | Ok n =>
    if (networks.Status n =? "DOWN")%string
       || (networks.Status n =? "ACTIVE")%string
    then Ret (Some n, "ACTIVE", None)
    else Ret (Some n, networks.Status n, None)
  end.

Definition waitForNetworkDelete (networkingClient : ServiceClient)
  (networkId : string) : Prog RefreshResult :=
  r <- networks_Get_Extract networkingClient networkId ;;
  match r with
  | Err err =>
    if isErrDefault404 err
    then Ret (None, "DELETED", None)
    else Ret (None, "ACTIVE", Some err)
  | Ok n =>
    r <- call (networks_Delete networkingClient networkId) ;;
    match r with
    | Some err =>
      if isErrDefault404 err
      then Ret (Some n, "DELETED", None)
      else if isConflict409 err
      then Ret (Some n, "ACTIVE", None)
      else Ret (Some n, "ACTIVE", Some err)
    | None => Ret (Some n, "ACTIVE", None)
    end
  end.

(* ===================================================================== *)
(** ** The state poller                                                   *)
(* ===================================================================== *)

(** [resource.StateChangeConf] with the fields the handlers fill in;
    [PollInterval] is the field they leave at its zero value.  In the
    words of the specification's PollRequest: [Pending] and [Target] are
    pendingStates and targetStates, [Refresh] is refresh already applied
    to the resource id, [Delay] is initialDelay, [Timeout] is timeout,
    [PollInterval] is pollInterval and [MinTimeout] is the sleep floor. *)
Record StateChangeConf := {
  Delay : Duration;
  Pending : list string;
  Refresh : Prog RefreshResult;
  Target : list string;
  Timeout : Duration;
  MinTimeout : Duration;
  PollInterval : Duration
}.

Inductive PollError : Type :=
| ValidationError
| RemoteError (e : error)
| TimeoutError.

Record PollOutcome := {
  finalState : string;
  succeeded : bool;
  err : option PollError
}.

Definition in_states (st : string) (states : list string) : bool :=
  existsb (String.eqb st) states.

(** The contract's condition on the two state sets: the targets are
    non-empty and disjoint from the pending states. *)
Definition PollRequest_valid (conf : StateChangeConf) : bool :=
  negb (Nat.eqb (length (Target conf)) 0)
  && forallb (fun st => negb (in_states st (Pending conf))) (Target conf).

(** The sleep between two attempts: pollInterval, at least the floor. *)
Definition sleepStep (conf : StateChangeConf) : Duration :=
  Z.max (PollInterval conf) (MinTimeout conf).

Definition outcome_timeout (last : string) : PollOutcome :=
  {| finalState := last; succeeded := false; err := Some TimeoutError |}.

Definition outcome_failed (st : string) (e : error) : PollOutcome :=
  {| finalState := st; succeeded := false; err := Some (RemoteError e) |}.

Definition outcome_succeeded (st : string) : PollOutcome :=
  {| finalState := st; succeeded := true; err := None |}.

(** Modelled from the spec: the poll loop of section 4.1 (the poller is
    the Terraform helper [resource.StateChangeConf.WaitForState], which is
    not part of the sources).  [elapsed] is the accumulated waiting time;
    an attempt starts only while it does not exceed the timeout.  An error
    from refresh ends the poll at once, a target state ends it with
    success, any other state sleeps and repeats.  The two errors with a
    meaning of their own in delete mode never reach the loop as errors:
    the refresh closure of Delete turns them into the states "DELETED" and
    "ACTIVE".  [fuel] bounds the number of attempts; [attempts] below
    always provides enough of it, see [attempts_suffice]. *)
Fixpoint poll_loop (conf : StateChangeConf) (fuel : nat)
  (elapsed : Duration) (last : string) : Prog PollOutcome :=
  if Timeout conf <? elapsed then Ret (outcome_timeout last)
  else
    match fuel with
    | O => Ret (outcome_timeout last)
    | S fuel' =>
      r <- Refresh conf ;;
      match r with
      | (_, st, Some e) => Ret (outcome_failed st e)
      | (_, st, None) =>
        if in_states st (Target conf)
        then Ret (outcome_succeeded st)
        else
          _ <- call (time_Sleep (sleepStep conf)) ;;
          poll_loop conf fuel' (elapsed + sleepStep conf) st
      end
    end.

(** The number of instants [Delay + k * sleepStep] that do not exceed
    the timeout. *)
Definition attempts (conf : StateChangeConf) : nat :=
  Z.to_nat ((Timeout conf - Delay conf) / sleepStep conf + 1).

(** Modelled from the spec: [poll] of section 4.1.  A request that
    violates the contract ends with a validation error before anything is
    awaited; otherwise wait initialDelay, then run the loop. *)
Definition WaitForState (conf : StateChangeConf) : Prog PollOutcome :=
  if PollRequest_valid conf
  then
    _ <- call (time_Sleep (Delay conf)) ;;
    poll_loop conf (attempts conf) (Delay conf) ""
  else
    Ret {| finalState := ""; succeeded := false;
           err := Some ValidationError |}.

(* ===================================================================== *)
(** ** Resource data and the provider's collaborators                     *)
(* ===================================================================== *)

Inductive TimeoutKey : Type :=
| TimeoutCreate
| TimeoutDelete.

(** [schema.ResourceData]: the id, the prior state, the current view read
    by [d.Get] and written by [d.Set], and the configured timeouts. *)
Record ResourceData := {
  d_Id : string;
  d_state : gmap string Value;
  d_fields : gmap string Value;
  d_timeouts : TimeoutKey -> Duration
}.

(** The [Timeouts] block of both resources:
    [schema.DefaultTimeout(10 * time.Minute)] for Create and Delete. *)
Definition defaultTimeouts (key : TimeoutKey) : Duration :=
  match key with
  | TimeoutCreate => 10 * Minute
  | TimeoutDelete => 10 * Minute
  end.

Definition SetId (d : ResourceData) (v : string) : ResourceData :=
  {| d_Id := v; d_state := d_state d; d_fields := d_fields d;
     d_timeouts := d_timeouts d |}.

(** [d.Set(key, value)]; the handlers ignore its error result. *)
Definition d_Set (d : ResourceData) (key : string) (value : Value)
  : ResourceData :=
  {| d_Id := d_Id d; d_state := d_state d;
     d_fields := <[key := value]> (d_fields d);
     d_timeouts := d_timeouts d |}.

(** [d.Get(key).(string)], the zero value when the key is unset. *)
Definition Get_string (d : ResourceData) (key : string) : string :=
  match d_fields d !! key with
  | Some (VString s) => s
  | _ => ""
  end.

(** [d.Get(key).(bool)] *)
Definition Get_bool (d : ResourceData) (key : string) : bool :=
  match d_fields d !! key with
  | Some (VBool b) => b
  | _ => false
  end.

(** [d.Get(key).([]interface{})] *)
Definition Get_list (d : ResourceData) (key : string) : list Value :=
  match d_fields d !! key with
  | Some (VList l) => l
  | _ => []
  end.

(** [d.Get(key).(map[string]interface{})] *)
Definition Get_map (d : ResourceData) (key : string)
  : list (string * Value) :=
  match d_fields d !! key with
  | Some (VMap m) => m
  | _ => []
  end.

(** [d.HasChange(key)]: the prior and the current value differ. *)
Definition HasChange (d : ResourceData) (key : string) : bool :=
  match d_state d !! key, d_fields d !! key with
  | Some old, Some new => negb (Value_eqb old new)
  | None, None => false
  | _, _ => true
  end.

(** [*Config] of the provider: the region and the two client factories
    the handlers use. *)
Record Config := {
  Region : string;
  networkingV2Client : string -> result ServiceClient;
  clusteringV1Client : string -> result ServiceClient
}.

(** What the handlers take from outside this file: helpers of the
    provider defined in other files, the RFC 3339 formatting of the Go
    library, and the poller of the Terraform helper library, of which the
    handlers use only the error result. *)
Class Collaborators := {
  GetRegion : ResourceData -> Config -> string;
  CheckDeleted :
    ResourceData -> error -> string -> option error * ResourceData;
  MapValueSpecs : ResourceData -> list (string * string);
  resourceNetworkingAvailabilityZoneHintsV2 : ResourceData -> list string;
  networkV2AttributesTags : ResourceData -> list string;
  Format_RFC3339 : Z -> string;
  stateConf_WaitForState : StateChangeConf -> Prog (option error)
}.

(** The same collaborators with a poller that refuses, before doing
    anything, a configuration that violates the condition on a poll
    request. *)
Definition with_checked_poller (C : Collaborators) : Collaborators :=
  {| GetRegion := @GetRegion C;
     CheckDeleted := @CheckDeleted C;
     MapValueSpecs := @MapValueSpecs C;
     resourceNetworkingAvailabilityZoneHintsV2 :=
       @resourceNetworkingAvailabilityZoneHintsV2 C;
     networkV2AttributesTags := @networkV2AttributesTags C;
     Format_RFC3339 := @Format_RFC3339 C;
     stateConf_WaitForState conf :=
       if PollRequest_valid conf
       then @stateConf_WaitForState C conf
       else Ret (Some (OtherError "invalid state change configuration")) |}.

(* ===================================================================== *)
(** ** The network handlers                                               *)
(* ===================================================================== *)

Section Handlers.
Context `{Collaborators}.

(** The result of a handler: the returned [error] and the resource data
    as the handler leaves it. *)
Definition HandlerResult : Type := option error * ResourceData.

Definition resourceNetworkingNetworkV2Segments (d : ResourceData)
  : list provider.Segment :=
  let segments := Get_list d "segments" in
  map (fun v =>
         (* the schema makes every element a map *)
         let segmentMap := match v with VMap m => m | _ => [] end in
         let PhysicalNetwork :=
           match map_index segmentMap "physical_network" with
           | Some (VString v) => v
           | _ => ""
           end in
         let NetworkType :=
           match map_index segmentMap "network_type" with
           | Some (VString v) => v
           | _ => ""
           end in
         let SegmentationID :=
           match map_index segmentMap "segmentation_id" with
           | Some (VInt v) => v
           | _ => 0
           end in
         {| provider.PhysicalNetwork := PhysicalNetwork;
            provider.NetworkType := NetworkType;
            provider.SegmentationID := SegmentationID |})
      segments.

Definition resourceNetworkingNetworkV2Read (d : ResourceData)
  (meta : Config) : Prog HandlerResult :=
  let config := meta in
  match networkingV2Client config (GetRegion d config) with
  | Err err =>
    Ret (Some (Errorf "Error creating OpenStack networking client: %s"
                 [err]), d)
  | Ok networkingClient =>
    r <- call (networks_Get networkingClient (d_Id d)) ;;
    match r with
    | Err err => Ret (CheckDeleted d err "network")
    | Ok n =>
      let net := external.Network n in
      let d := d_Set d "name" (VString (networks.Name net)) in
      let d := d_Set d "description"
                 (VString (networks.Description net)) in
      let d := d_Set d "admin_state_up"
                 (VString (strconv_FormatBool (networks.AdminStateUp net))) in
      let d := d_Set d "shared"
                 (VString (strconv_FormatBool (networks.Shared net))) in
      let d := d_Set d "external"
                 (VString (strconv_FormatBool (external.External n))) in
      let d := d_Set d "tenant_id" (VString (networks.TenantID net)) in
      let d := d_Set d "region" (VString (GetRegion d config)) in
      let d := d_Set d "tags" (VList (map VString (networks.Tags net))) in
      let d := d_Set d "availability_zone_hints"
                 (VList (map VString
                           (networks.AvailabilityZoneHints net))) in
      Ret (None, d)
    end
  end.

(** The [resource.StateChangeConf] literal of Create. *)
Definition createStateConf (networkingClient : ServiceClient)
  (n : networks.Network) (d : ResourceData) : StateChangeConf :=
  {| Pending := ["BUILD"];
     Target := ["ACTIVE"];
     Refresh := waitForNetworkActive networkingClient (networks.ID n);
     Timeout := d_timeouts d TimeoutCreate;
     Delay := 5 * Second;
     MinTimeout := 3 * Second;
     PollInterval := 0 |}.

(** The [resource.StateChangeConf] literal of Delete. *)
Definition deleteStateConf (networkingClient : ServiceClient)
  (d : ResourceData) : StateChangeConf :=
  {| Pending := ["ACTIVE"];
     Target := ["DELETED"];
     Refresh := waitForNetworkDelete networkingClient (d_Id d);
     Timeout := d_timeouts d TimeoutDelete;
     Delay := 5 * Second;
     MinTimeout := 3 * Second;
     PollInterval := 0 |}.

Definition resourceNetworkingNetworkV2Create (d : ResourceData)
  (meta : Config) : Prog HandlerResult :=
  let config := meta in
  match networkingV2Client config (GetRegion d config) with
  | Err err =>
    Ret (Some (Errorf "Error creating OpenStack networking client: %s"
                 [err]), d)
  | Ok networkingClient =>
    let createOpts :=
      {| networks.co_Name := Get_string d "name";
         networks.co_Description := Get_string d "description";
         networks.co_TenantID := Get_string d "tenant_id";
         networks.co_AvailabilityZoneHints :=
           resourceNetworkingAvailabilityZoneHintsV2 d;
         networks.co_AdminStateUp := None;
         networks.co_Shared := None |} in
    let valueSpecs := MapValueSpecs d in
    let asuRaw := Get_string d "admin_state_up" in
    match
      (if negb (asuRaw =? "")%string then
         match strconv_ParseBool asuRaw with
         | Err _ =>
           Err (Errorf
                  "admin_state_up, if provided, must be either 'true' or 'false'"
                  [])
         | Ok asu => Ok (networks.set_co_AdminStateUp createOpts (Some asu))
         end
       else Ok createOpts)
    with
    | Err e => Ret (Some e, d)
    | Ok createOpts =>
      let sharedRaw := Get_string d "shared" in
      match
        (if negb (sharedRaw =? "")%string then
           match strconv_ParseBool sharedRaw with
           | Err err =>
             Err (Errorf
                    "shared, if provided, must be either 'true' or 'false': %v"
                    [err])
           | Ok shared => Ok (networks.set_co_Shared createOpts (Some shared))
           end
         else Ok createOpts)
      with
      | Err e => Ret (Some e, d)
      | Ok createOpts =>
        let createOpts := NetworkCreateOpts createOpts valueSpecs in
        let segments := resourceNetworkingNetworkV2Segments d in
        let isExternal := Get_bool d "external" in
        r <- (if (0 <? length segments)%nat then
                let providerCreateOpts :=
                  provider_CreateOptsExt createOpts segments in
                if isExternal then
                  let createExternalOpts :=
                    external_CreateOptsExt providerCreateOpts
                      (Some isExternal) in
                  call (networks_Create networkingClient createExternalOpts)
                else
                  call (networks_Create networkingClient providerCreateOpts)
              else
                if isExternal then
                  let createExternalOpts :=
                    external_CreateOptsExt createOpts (Some isExternal) in
                  call (networks_Create networkingClient createExternalOpts)
                else
                  call (networks_Create networkingClient createOpts)) ;;
        match r with
        | Err err =>
          Ret (Some (Errorf "Error creating OpenStack Neutron network: %s"
                       [err]), d)
        | Ok n =>
          let tags := networkV2AttributesTags d in
          r <- (if (0 <? length tags)%nat then
                  let tagOpts := tags in
                  r <- call (attributestags_ReplaceAll networkingClient
                               "networks" (networks.ID n) tagOpts) ;;
                  match r with
                  | Err err =>
                    Ret (Some (Errorf "Error creating Tags on Network: %s"
                                 [err]))
                  | Ok _ => Ret None
                  end
                else Ret None) ;;
          match r with
          | Some e => Ret (Some e, d)
          | None =>
            let stateConf := createStateConf networkingClient n d in
            _ <- stateConf_WaitForState stateConf ;;
            let d := SetId d (networks.ID n) in
            resourceNetworkingNetworkV2Read d meta
          end
        end
      end
    end
  end.

Definition resourceNetworkingNetworkV2Update (d : ResourceData)
  (meta : Config) : Prog HandlerResult :=
  let config := meta in
  match networkingV2Client config (GetRegion d config) with
  | Err err =>
    Ret (Some (Errorf "Error creating OpenStack networking client: %s"
                 [err]), d)
  | Ok networkingClient =>
    let updateOpts := networks.UpdateOpts_zero in
    let updateOpts :=
      if HasChange d "name"
      then networks.set_uo_Name updateOpts (Get_string d "name")
      else updateOpts in
    let updateOpts :=
      if HasChange d "description"
      then
        let description := Get_string d "description" in
        networks.set_uo_Description updateOpts (Some description)
      else updateOpts in
    r <- (if HasChange d "tags" then
            let tags := networkV2AttributesTags d in
            let tagOpts := tags in
            r <- call (attributestags_ReplaceAll networkingClient "networks"
                         (d_Id d) tagOpts) ;;
            match r with
            | Err err =>
              Ret (Some (Errorf "Error updating Tags on Network: %s" [err]))
            | Ok _ => Ret None
            end
          else Ret None) ;;
    match r with
    | Some e => Ret (Some e, d)
    | None =>
      match
        (if HasChange d "admin_state_up" then
           let asuRaw := Get_string d "admin_state_up" in
           if negb (asuRaw =? "")%string then
             match strconv_ParseBool asuRaw with
             | Err _ =>
               Err (Errorf
                      "admin_state_up, if provided, must be either 'true' or 'false'"
                      [])
             | Ok asu =>
               Ok (networks.set_uo_AdminStateUp updateOpts (Some asu))
             end
           else Ok updateOpts
         else Ok updateOpts)
      with
      | Err e => Ret (Some e, d)
      | Ok updateOpts =>
        match
          (if HasChange d "shared" then
             let sharedRaw := Get_string d "shared" in
             if negb (sharedRaw =? "")%string then
               match strconv_ParseBool sharedRaw with
               | Err err =>
                 Err (Errorf
                        "shared, if provided, must be either 'true' or 'false': %v"
                        [err])
               | Ok shared =>
                 Ok (networks.set_uo_Shared updateOpts (Some shared))
               end
             else Ok updateOpts
           else Ok updateOpts)
        with
        | Err e => Ret (Some e, d)
        | Ok updateOpts =>
          let isExternal := false in
          let isExternal :=
            if HasChange d "external" then Get_bool d "external"
            else isExternal in
          r <- (if isExternal then
                  let externalUpdateOpts :=
                    external_UpdateOptsExt (networks_UpdateOpts updateOpts)
                      (Some isExternal) in
                  call (networks_Update networkingClient (d_Id d)
                          externalUpdateOpts)
                else
                  call (networks_Update networkingClient (d_Id d)
                          (networks_UpdateOpts updateOpts))) ;;
          match r with
          | Err err =>
            Ret (Some (Errorf "Error updating OpenStack Neutron Network: %s"
                         [err]), d)
          | Ok _ => resourceNetworkingNetworkV2Read d meta
          end
        end
      end
    end
  end.

Definition resourceNetworkingNetworkV2Delete (d : ResourceData)
  (meta : Config) : Prog HandlerResult :=
  let config := meta in
  match networkingV2Client config (GetRegion d config) with
  | Err err =>
    Ret (Some (Errorf "Error creating OpenStack networking client: %s"
                 [err]), d)
  | Ok networkingClient =>
    let stateConf := deleteStateConf networkingClient d in
    r <- stateConf_WaitForState stateConf ;;
    match r with
    | Some err =>
      Ret (Some (Errorf "Error deleting OpenStack Neutron Network: %s"
                   [err]), d)
    | None =>
      let d := SetId d "" in
      Ret (None, d)
    end
  end.

(* ===================================================================== *)
(** ** The clustering-profile handlers                                    *)
(* ===================================================================== *)

Definition resourceClusteringProfileV1Read (d : ResourceData)
  (meta : Config) : Prog HandlerResult :=
  let config := meta in
  match clusteringV1Client config (GetRegion d config) with
  | Err err =>
    Ret (Some (Errorf "Error creating OpenStack clustering client: %s"
                 [err]), d)
  | Ok clusteringClient =>
    r <- call (profiles_Get clusteringClient (d_Id d)) ;;
    match r with
    | Err err =>
      Ret (CheckDeleted d err
             "Error retrieving openstack_clustering_profile_v1")
    | Ok s =>
      let d := d_Set d "created_at" (VTime (profiles.CreatedAt s)) in
      let d := d_Set d "domain" (VString (profiles.Domain s)) in
      let d := d_Set d "id" (VString (profiles.ID s)) in
      let d := d_Set d "metadata" (VMap (profiles.Metadata s)) in
      let d := d_Set d "project" (VString (profiles.Project s)) in
      let d := d_Set d "spec"
                 (VMap (profiles.Properties (profiles.Spec_ s))) in
      let d := d_Set d "type" (VString (profiles.Type' s)) in
      let d := d_Set d "updated_at" (VTime (profiles.UpdatedAt s)) in
      let d := d_Set d "user" (VString (profiles.User s)) in
      let d := d_Set d "region" (VString (GetRegion d config)) in
      let d := d_Set d "name" (VString (profiles.Name s)) in
      let d := d_Set d "created_at"
                 (VString (Format_RFC3339 (profiles.CreatedAt s))) in
      let d := d_Set d "updated_at"
                 (VString (Format_RFC3339 (profiles.UpdatedAt s))) in
      Ret (None, d)
    end
  end.

Definition resourceClusteringProfileV1Create (d : ResourceData)
  (meta : Config) : Prog HandlerResult :=
  let config := meta in
  match clusteringV1Client config (GetRegion d config) with
  | Err err =>
    Ret (Some (Errorf "Error creating OpenStack clustering client: %s"
                 [err]), d)
  | Ok clusteringClient =>
    let createOpts :=
      {| profiles.co_Name := Get_string d "name";
         profiles.co_Spec :=
           {| profiles.Type_ := "os.nova.server";
              profiles.Version := "1.0";
              profiles.Properties := Get_map d "spec" |} |} in
    r <- call (profiles_Create clusteringClient createOpts) ;;
    match r with
    | Err err =>
      Ret (Some (Errorf "Error creating openstack_clustering_profile_v1: %s"
                   [err]), d)
    | Ok s =>
      let d := SetId d (profiles.ID s) in
      resourceClusteringProfileV1Read d meta
    end
  end.

(** The update request of this handler is commented out in the source;
    what remains is the final read. *)
Definition resourceClusteringProfileV1Update (d : ResourceData)
  (meta : Config) : Prog HandlerResult :=
  resourceClusteringProfileV1Read d meta.

Definition resourceClusteringProfileV1Delete (d : ResourceData)
  (meta : Config) : Prog HandlerResult :=
  let config := meta in
  match clusteringV1Client config (GetRegion d config) with
  | Err err =>
    Ret (Some (Errorf "Error creating OpenStack clustering client: %s"
                 [err]), d)
  | Ok clusteringClient =>
    r <- call (profiles_Delete clusteringClient (d_Id d)) ;;
    match r with
    | Some err =>
      Ret (CheckDeleted d err
             "Error deleting openstack_clustering_profile_v1")
    | None => Ret (None, d)
    end
  end.

End Handlers.

(* ===================================================================== *)
(** ** An example remote and example collaborators                        *)
(* ===================================================================== *)

(** A small cloud used to run the handlers on concrete inputs.  It keeps
    a list of networks; a network listed in [busy] still has ports and
    cannot be deleted; sleeping lets networks under construction become
    active.  It serves no clustering profiles. *)
Module Cloud.

Record state := {
  nets : list external.NetworkWithExt;
  busy : list string;
  tags_extension : bool;
  reachable : bool;
  read_only : bool;
  next_id : string
}.

Definition not_found : error :=
  ErrDefault404 {| Actual := 404; Body := "resource not found" |}.
Definition in_use : error :=
  ErrUnexpectedResponseCode {| Actual := 409; Body := "network in use" |}.
Definition unreachable : error := OtherError "connection refused".
Definition forbidden : error :=
  ErrUnexpectedResponseCode {| Actual := 403; Body := "read-only" |}.

Definition has_id (id : string) (n : external.NetworkWithExt) : bool :=
  (networks.ID (external.Network n) =? id)%string.

Definition with_nets (s : state) (l : list external.NetworkWithExt) :=
  {| nets := l; busy := busy s; tags_extension := tags_extension s;
     reachable := reachable s; read_only := read_only s;
     next_id := next_id s |}.

Fixpoint base_opts (b : CreateOptsBuilder)
  : networks.CreateOpts * bool :=
  match b with
  | NetworkCreateOpts o _ => (o, false)
  | provider_CreateOptsExt b' _ => base_opts b'
  | external_CreateOptsExt b' e =>
    (fst (base_opts b'), default false e)
  end.

Definition created (id : string) (b : CreateOptsBuilder)
  : external.NetworkWithExt :=
  let '(o, e) := base_opts b in
  {| external.Network :=
       {| networks.ID := id;
          networks.Name := networks.co_Name o;
          networks.Description := networks.co_Description o;
          networks.AdminStateUp := default true (networks.co_AdminStateUp o);
          networks.Status := "BUILD";
          networks.TenantID := networks.co_TenantID o;
          networks.Shared := default false (networks.co_Shared o);
          networks.AvailabilityZoneHints :=
            networks.co_AvailabilityZoneHints o;
          networks.Tags := [] |};
     external.External := e |}.

Definition set_status (st : string) (n : external.NetworkWithExt) :=
  let net := external.Network n in
  {| external.Network :=
       {| networks.ID := networks.ID net;
          networks.Name := networks.Name net;
          networks.Description := networks.Description net;
          networks.AdminStateUp := networks.AdminStateUp net;
          networks.Status := st;
          networks.TenantID := networks.TenantID net;
          networks.Shared := networks.Shared net;
          networks.AvailabilityZoneHints :=
            networks.AvailabilityZoneHints net;
          networks.Tags := networks.Tags net |};
     external.External := external.External n |}.

Definition set_tags (tags : list string) (n : external.NetworkWithExt) :=
  let net := external.Network n in
  {| external.Network :=
       {| networks.ID := networks.ID net;
          networks.Name := networks.Name net;
          networks.Description := networks.Description net;
          networks.AdminStateUp := networks.AdminStateUp net;
          networks.Status := networks.Status net;
          networks.TenantID := networks.TenantID net;
          networks.Shared := networks.Shared net;
          networks.AvailabilityZoneHints :=
            networks.AvailabilityZoneHints net;
          networks.Tags := tags |};
     external.External := external.External n |}.

Definition settle (n : external.NetworkWithExt) :=
  if (networks.Status (external.Network n) =? "BUILD")%string
  then set_status "ACTIVE" n else n.

Definition serve (R : Type) (c : Call R) (s : state) : R * state :=
  match c in Call R return R * state with
  | networks_Get _ id =>
    if negb (reachable s) then (Err unreachable, s)
    else match find (has_id id) (nets s) with
         | Some n => (Ok n, s)
         | None => (Err not_found, s)
         end
  | networks_Create _ opts =>
    if negb (reachable s) then (Err unreachable, s)
    else if read_only s then (Err forbidden, s)
    else let n := created (next_id s) opts in
         (Ok (external.Network n), with_nets s (n :: nets s))
  | networks_Update _ id _ =>
    if negb (reachable s) then (Err unreachable, s)
    else if read_only s then (Err forbidden, s)
    else match find (has_id id) (nets s) with
         | Some n => (Ok (external.Network n), s)
         | None => (Err not_found, s)
         end
  | networks_Delete _ id =>
    if negb (reachable s) then (Some unreachable, s)
    else if read_only s then (Some forbidden, s)
    else if existsb (String.eqb id) (busy s) then (Some in_use, s)
    else match find (has_id id) (nets s) with
         | Some _ =>
           (None,
            with_nets s (filter (fun n => negb (has_id id n)) (nets s)))
         | None => (Some not_found, s)
         end
  | attributestags_ReplaceAll _ _ id tags =>
    if negb (reachable s) then (Err unreachable, s)
    else if read_only s then (Err forbidden, s)
    else if negb (tags_extension s) then (Err not_found, s)
    else match find (has_id id) (nets s) with
         | Some _ =>
           (Ok tags,
            with_nets s
              (map (fun n => if has_id id n then set_tags tags n else n)
                 (nets s)))
         | None => (Err not_found, s)
         end
  | profiles_Get _ _ => (Err not_found, s)
  | profiles_Create _ _ => (Err not_found, s)
  | profiles_Delete _ _ => (Some not_found, s)
  | time_Sleep _ => (tt, with_nets s (map settle (nets s)))
  end.

Definition remote : Remote state := {| handle := serve |}.

Definition client : ServiceClient :=
  {| Endpoint := "https://cloud.example/network" |}.

Definition config : Config :=
  {| Region := "RegionOne";
     networkingV2Client := fun _ => Ok client;
     clusteringV1Client := fun _ => Ok client |}.

(** A configuration whose client factories fail. *)
Definition config_no_client : Config :=
  {| Region := "RegionOne";
     networkingV2Client := fun _ => Err (OtherError "no endpoint found");
     clusteringV1Client := fun _ => Err (OtherError "no endpoint found") |}.

Definition net1 : external.NetworkWithExt :=
  {| external.Network :=
       {| networks.ID := "net-1"; networks.Name := "front";
          networks.Description := ""; networks.AdminStateUp := true;
          networks.Status := "ACTIVE"; networks.TenantID := "t";
          networks.Shared := false;
          networks.AvailabilityZoneHints := [];
          networks.Tags := [] |};
     external.External := false |}.

(** The network the cloud builds for [new_plain] below. *)
Definition front : external.NetworkWithExt :=
  {| external.Network :=
       {| networks.ID := "net-1"; networks.Name := "front";
          networks.Description := ""; networks.AdminStateUp := true;
          networks.Status := "BUILD"; networks.TenantID := "";
          networks.Shared := false;
          networks.AvailabilityZoneHints := [];
          networks.Tags := [] |};
     external.External := false |}.

Definition empty : state :=
  {| nets := []; busy := []; tags_extension := true; reachable := true;
     read_only := false; next_id := "net-1" |}.

(** One active network that can be deleted. *)
Definition one_net : state := with_nets empty [net1].

(** One active network that still has ports. *)
Definition one_busy_net : state :=
  {| nets := [net1]; busy := ["net-1"]; tags_extension := true;
     reachable := true; read_only := false; next_id := "net-2" |}.

(** One network under construction. *)
Definition one_building_net : state :=
  with_nets empty [set_status "BUILD" net1].

(** A cloud that does not answer. *)
Definition down : state :=
  {| nets := [net1]; busy := []; tags_extension := true;
     reachable := false; read_only := false; next_id := "net-2" |}.

(** A cloud that refuses every change. *)
Definition frozen : state :=
  {| nets := [net1]; busy := []; tags_extension := true;
     reachable := true; read_only := true; next_id := "net-2" |}.

(** A cloud without the tag extension. *)
Definition no_tags : state :=
  {| nets := []; busy := []; tags_extension := false; reachable := true;
     read_only := false; next_id := "net-1" |}.

Definition strings_of (l : list Value) : list string :=
  omap (fun v => match v with VString s => Some s | _ => None end) l.

Definition as_error (e : PollError) : error :=
  match e with
  | RemoteError e => e
  | TimeoutError => OtherError "timeout while waiting for state"
  | ValidationError => OtherError "invalid state change configuration"
  end.

(** Example collaborators; the poller is the one modelled above. *)
#[export] Instance collaborators : Collaborators := {|
  GetRegion d config :=
    match d_fields d !! "region" with
    | Some (VString r) => if (r =? "")%string then Region config else r
    | _ => Region config
    end;
  CheckDeleted d err msg :=
    if isErrDefault404 err then (None, SetId d "")
    else (Some (Errorf "%s %s: %s"
                  [OtherError msg; OtherError (d_Id d); err]), d);
  MapValueSpecs d :=
    omap (fun kv => match kv with
                    | (k, VString v) => Some (k, v)
                    | _ => None
                    end) (Get_map d "value_specs");
  resourceNetworkingAvailabilityZoneHintsV2 d :=
    strings_of (Get_list d "availability_zone_hints");
  networkV2AttributesTags d := strings_of (Get_list d "tags");
  Format_RFC3339 t := "1970-01-01T00:00:00Z";
  stateConf_WaitForState conf :=
    o <- WaitForState conf ;;
    Ret (as_error <$> err o)
|}.

Definition resource (id : string) (prior fields : list (string * Value))
  : ResourceData :=
  {| d_Id := id; d_state := list_to_map prior;
     d_fields := list_to_map fields;
     d_timeouts := fun _ => 10 * Second |}.

(** A new external network with one provider segment. *)
Definition new_segmented : ResourceData :=
  resource "" []
    [("name", VString "uplink"); ("external", VBool true);
     ("shared", VString "false");
     ("segments",
      VList [VMap [("physical_network", VString "physnet1");
                   ("network_type", VString "vlan");
                   ("segmentation_id", VInt 42)]])].

(** The create request for [new_segmented]. *)
Definition segmented_request : CreateOptsBuilder :=
  external_CreateOptsExt
    (provider_CreateOptsExt
       (NetworkCreateOpts
          {| networks.co_AdminStateUp := None;
             networks.co_Name := "uplink";
             networks.co_Description := "";
             networks.co_Shared := Some false;
             networks.co_TenantID := "";
             networks.co_AvailabilityZoneHints := [] |} [])
       [{| provider.PhysicalNetwork := "physnet1";
           provider.NetworkType := "vlan";
           provider.SegmentationID := 42 |}])
    (Some true).


(** [net1] renamed, with [external] switched off. *)
Definition renamed_internal : ResourceData :=
  resource "net-1"
    [("name", VString "front"); ("external", VBool true)]
    [("name", VString "back"); ("external", VBool false)].

(** The resource of [net1] as a read leaves it. *)
Definition net1_resource : ResourceData :=
  resource "net-1" [("admin_state_up", VString "true")]
    [("admin_state_up", VString "true")].

(** A new network whose [admin_state_up] is not a boolean. *)
Definition new_bad_admin_state : ResourceData :=
  resource "" [] [("name", VString "front");
                  ("admin_state_up", VString "maybe")].

(** A new network whose [shared] is not a boolean. *)
Definition new_bad_shared : ResourceData :=
  resource "" [] [("name", VString "front");
                  ("admin_state_up", VString "true");
                  ("shared", VString "yes")].

(** A new network with a tag. *)
Definition new_tagged : ResourceData :=
  resource "" [] [("name", VString "front");
                  ("tags", VList [VString "blue"])].

(** A new network without tags. *)
Definition new_plain : ResourceData :=
  resource "" [] [("name", VString "front");
                  ("admin_state_up", VString "true")].

(** [net1] with [admin_state_up] changed to something that is not a
    boolean. *)
Definition changed_bad_admin_state : ResourceData :=
  resource "net-1" [("admin_state_up", VString "true")]
    [("admin_state_up", VString "maybe")].

(** The same change together with a change of the tags. *)
Definition changed_tags_bad_admin_state : ResourceData :=
  resource "net-1"
    [("admin_state_up", VString "true"); ("tags", VList [])]
    [("admin_state_up", VString "maybe");
     ("tags", VList [VString "blue"])].

(** A resource whose recorded [admin_state_up] already is the value
    that is not a boolean: the field has no change. *)
Definition unchanged_bad_admin_state : ResourceData :=
  resource "net-1" [("admin_state_up", VString "maybe")]
    [("admin_state_up", VString "maybe")].

End Cloud.

(* ===================================================================== *)
(** ** What a remote lets a refresh observe                               *)
(* ===================================================================== *)

Section Observations.
Context {S : Type} (h : Remote S).

(** One invocation of the delete-mode closure in state [s] observes a
    404: the Get answers with one, or the Get succeeds and the Delete
    answers with one. *)
Definition observed404 (c : ServiceClient) (id : string) (s : S) : bool :=
  match handle h (networks_Get c id) s with
  | (Err e, _) => isErrDefault404 e
  | (Ok _, s1) =>
    match handle h (networks_Delete c id) s1 with
    | (Some e, _) => isErrDefault404 e
    | (None, _) => false
    end
  end.

(** One invocation in state [s] gets a 409 from its Delete request. *)
Definition deleteConflict (c : ServiceClient) (id : string) (s : S)
  : bool :=
  match handle h (networks_Get c id) s with
  | (Err _, _) => false
  | (Ok _, s1) =>
    match handle h (networks_Delete c id) s1 with
    | (Some e, _) => isConflict409 e
    | (None, _) => false
    end
  end.

Variable conf : StateChangeConf.

(** The remote as the first attempt of a poll finds it. *)
Definition first_attempt (s : S) : S :=
  snd (handle h (time_Sleep (Delay conf)) s).

(** The remote after one refresh and the sleep that follows it. *)
Definition next_round (s : S) : S :=
  snd (handle h (time_Sleep (sleepStep conf))
         (snd (run h (Refresh conf) s))).

(** The remote as attempt number [k] (from 0) finds it, when the
    attempts before it were each followed by a sleep. *)
Fixpoint round_state (k : nat) (s : S) : S :=
  match k with
  | O => s
  | Datatypes.S k' => round_state k' (next_round s)
  end.

(** The refresh in state [s] reports, without error, a state that is not
    a target: the poll goes on. *)
Definition continues (s : S) : bool :=
  match fst (run h (Refresh conf) s) with
  | (_, st, None) => negb (in_states st (Target conf))
  | (_, _, Some _) => false
  end.

End Observations.

(** Recognisers for requests in a trace. *)
Definition is_networks_Update (a : AnyCall) : bool :=
  match a with
  | aCall (networks_Update _ _ _) => true
  | _ => false
  end.

Definition is_networks_Get (a : AnyCall) : bool :=
  match a with
  | aCall (networks_Get _ _) => true
  | _ => false
  end.

Definition is_networks_Create (a : AnyCall) : bool :=
  match a with
  | aCall (networks_Create _ _) => true
  | _ => false
  end.

Definition is_mutating (a : AnyCall) : bool :=
  match a with
  | aCall c => mutating c
  end.

(** The two validation errors of the network handlers. *)
Definition adminStateUpError : error :=
  Errorf "admin_state_up, if provided, must be either 'true' or 'false'" [].

Definition sharedError (sharedRaw : string) : error :=
  Errorf "shared, if provided, must be either 'true' or 'false': %v"
    [NumError "ParseBool" sharedRaw].

(** A field value that is given and that [strconv.ParseBool] rejects. *)
Definition unparseable (raw : string) : bool :=
  negb (raw =? "")%string
  && match strconv_ParseBool raw with
     | Ok _ => false
     | Err _ => true
     end.

(** The validation error for an input of Create with such a field: the
    one for [admin_state_up] when that field is rejected, otherwise the
    one for [shared]. *)
Definition createValidationError (d : ResourceData) : error :=
  if unparseable (Get_string d "admin_state_up")
  then adminStateUpError
  else sharedError (Get_string d "shared").

(** The same for Update, which looks at a field only when it has a
    change. *)
Definition updateValidationError (d : ResourceData) : error :=
  if HasChange d "admin_state_up"
     && unparseable (Get_string d "admin_state_up")
  then adminStateUpError
  else sharedError (Get_string d "shared").

(* ===================================================================== *)
(** ** What a request carries                                             *)
(* ===================================================================== *)

(** The first request of a program, if it issues one. *)
Definition first_request {A : Type} (p : Prog A) : option AnyCall :=
  match p with
  | Ret _ => None
  | Vis c _ => Some (aCall c)
  end.

(** The SDK options at the core of a create request. *)
Fixpoint sent_CreateOpts (b : CreateOptsBuilder) : networks.CreateOpts :=
  match b with
  | NetworkCreateOpts opts _ => opts
  | provider_CreateOptsExt b' _ => sent_CreateOpts b'
  | external_CreateOptsExt b' _ => sent_CreateOpts b'
  end.

(** The value specs of a create request. *)
Fixpoint sent_ValueSpecs (b : CreateOptsBuilder) : list (string * string) :=
  match b with
  | NetworkCreateOpts _ valueSpecs => valueSpecs
  | provider_CreateOptsExt b' _ => sent_ValueSpecs b'
  | external_CreateOptsExt b' _ => sent_ValueSpecs b'
  end.

(** The provider segments of a create request; [None] when no provider
    extension wraps it. *)
Fixpoint sent_Segments (b : CreateOptsBuilder)
  : option (list provider.Segment) :=
  match b with
  | NetworkCreateOpts _ _ => None
  | provider_CreateOptsExt _ segments => Some segments
  | external_CreateOptsExt b' _ => sent_Segments b'
  end.

(** The external flag of a create request; [None] when no external
    extension wraps it. *)
Fixpoint sent_External (b : CreateOptsBuilder) : option bool :=
  match b with
  | NetworkCreateOpts _ _ => None
  | provider_CreateOptsExt b' _ => sent_External b'
  | external_CreateOptsExt _ e => e
  end.

(** The same for an update request. *)
Fixpoint sent_UpdateOpts (b : UpdateOptsBuilder) : networks.UpdateOpts :=
  match b with
  | networks_UpdateOpts opts => opts
  | external_UpdateOptsExt b' _ => sent_UpdateOpts b'
  end.

Definition sent_UpdateExternal (b : UpdateOptsBuilder) : option bool :=
  match b with
  | networks_UpdateOpts _ => None
  | external_UpdateOptsExt _ e => e
  end.

(** The body of a request, if it is a create request. *)
Definition create_request (a : AnyCall) : option CreateOptsBuilder :=
  match a with
  | aCall (networks_Create _ opts) => Some opts
  | _ => None
  end.

(** The bodies of the update requests in a trace. *)
Definition update_requests (tr : list AnyCall) : list UpdateOptsBuilder :=
  omap (fun a => match a with
                 | aCall (networks_Update _ _ opts) => Some opts
                 | _ => None
                 end) tr.

Definition is_profiles_Get (a : AnyCall) : bool :=
  match a with
  | aCall (profiles_Get _ _) => true
  | _ => false
  end.

(** A segment as the configuration holds it: a map with the three keys
    of the schema. *)
Definition segment_map (seg : provider.Segment) : list (string * Value) :=
  [("physical_network", VString (provider.PhysicalNetwork seg));
   ("network_type", VString (provider.NetworkType seg));
   ("segmentation_id", VInt (provider.SegmentationID seg))].

(** The keys the network Read writes. *)
Definition network_read_keys : list string :=
  ["name"; "description"; "admin_state_up"; "shared"; "external";
   "tenant_id"; "region"; "tags"; "availability_zone_hints"].

(** What the configuration gives for an optional boolean kept as a
    string: nothing when it is empty, otherwise what it parses to. *)
Definition optional_bool (raw : string) : option bool :=
  if (raw =? "")%string then None
  else match strconv_ParseBool raw with
       | Ok b => Some b
       | Err _ => None
       end.

(* ===================================================================== *)
(** ** Running programs                                                   *)
(* ===================================================================== *)

Section Running.
Context {S : Type} (h : Remote S).

Lemma run_bind {A B : Type} (p : Prog A) (f : A -> Prog B) (s : S) :
  run h (bind p f) s = run h (f (fst (run h p s))) (snd (run h p s)).
Proof.
  revert s. induction p as [a | R c k IH]; intros s; simpl.
  - reflexivity.
  - destruct (handle h c s) as [r s']. apply IH.
Qed.

Lemma trace_bind {A B : Type} (p : Prog A) (f : A -> Prog B) (s : S) :
  trace h (bind p f) s
  = (trace h p s ++ trace h (f (fst (run h p s))) (snd (run h p s)))%list.
Proof.
  revert s. induction p as [a | R c k IH]; intros s; simpl.
  - reflexivity.
  - destruct (handle h c s) as [r s']. simpl. f_equal. apply IH.
Qed.

Lemma run_call {R : Type} (c : Call R) (s : S) :
  run h (call c) s = handle h c s.
Proof. simpl. destruct (handle h c s); reflexivity. Qed.

(** The create-mode closure on an arbitrary remote. *)
Lemma run_waitForNetworkActive (c : ServiceClient) (id : string) (s : S) :
  run h (waitForNetworkActive c id) s
  = match handle h (networks_Get c id) s with
    | (Err e, s') => ((None, "", Some e), s')
    | (Ok body, s') =>
      let n := external.Network body in
      if (networks.Status n =? "DOWN")%string
         || (networks.Status n =? "ACTIVE")%string
      then ((Some n, "ACTIVE", None), s')
      else ((Some n, networks.Status n, None), s')
    end.
Proof.
  unfold waitForNetworkActive, networks_Get_Extract. simpl.
  destruct (handle h (networks_Get c id) s) as [[body | e] s']; simpl.
  - destruct (_ || _); reflexivity.
  - reflexivity.
Qed.

(** The delete-mode closure on an arbitrary remote. *)
Lemma run_waitForNetworkDelete (c : ServiceClient) (id : string) (s : S) :
  run h (waitForNetworkDelete c id) s
  = match handle h (networks_Get c id) s with
    | (Err e, s') =>
      if isErrDefault404 e then ((None, "DELETED", None), s')
      else ((None, "ACTIVE", Some e), s')
    | (Ok body, s1) =>
      let n := external.Network body in
      match handle h (networks_Delete c id) s1 with
      | (Some e, s2) =>
        if isErrDefault404 e then ((Some n, "DELETED", None), s2)
        else if isConflict409 e then ((Some n, "ACTIVE", None), s2)
        else ((Some n, "ACTIVE", Some e), s2)
      | (None, s2) => ((Some n, "ACTIVE", None), s2)
      end
    end.
Proof.
  unfold waitForNetworkDelete, networks_Get_Extract. simpl.
  destruct (handle h (networks_Get c id) s) as [[body | e] s1]; simpl.
  - destruct (handle h (networks_Delete c id) s1) as [[e |] s2]; simpl.
    + destruct (isErrDefault404 e); [reflexivity |].
      destruct (isConflict409 e); reflexivity.
    + reflexivity.
  - destruct (isErrDefault404 e); reflexivity.
Qed.

Lemma trace_waitForNetworkActive (c : ServiceClient) (id : string) (s : S) :
  trace h (waitForNetworkActive c id) s = [aCall (networks_Get c id)].
Proof.
  unfold waitForNetworkActive, networks_Get_Extract. simpl.
  destruct (handle h (networks_Get c id) s) as [[body | e] s']; simpl.
  - destruct (_ || _); reflexivity.
  - reflexivity.
Qed.

Lemma trace_waitForNetworkDelete (c : ServiceClient) (id : string) (s : S) :
  trace h (waitForNetworkDelete c id) s
  = match handle h (networks_Get c id) s with
    | (Ok _, _) => [aCall (networks_Get c id); aCall (networks_Delete c id)]
    | (Err _, _) => [aCall (networks_Get c id)]
    end.
Proof.
  unfold waitForNetworkDelete, networks_Get_Extract. simpl.
  destruct (handle h (networks_Get c id) s) as [[body | e] s1]; simpl.
  - destruct (handle h (networks_Delete c id) s1) as [[e |] s2]; simpl.
    + destruct (isErrDefault404 e); [reflexivity |].
      destruct (isConflict409 e); reflexivity.
    + reflexivity.
  - destruct (isErrDefault404 e); reflexivity.
Qed.

(* --------------------------------------------------------------------- *)
(** *** The poll loop                                                     *)
(* --------------------------------------------------------------------- *)

Variable conf : StateChangeConf.

(** One attempt that starts in time. *)
Lemma run_poll_loop_attempt (fuel : nat) (elapsed : Duration)
  (last : string) (s : S) :
  elapsed <= Timeout conf ->
  run h (poll_loop conf (Datatypes.S fuel) elapsed last) s
  = match run h (Refresh conf) s with
    | ((_, st, Some e), s1) => (outcome_failed st e, s1)
    | ((_, st, None), s1) =>
      if in_states st (Target conf) then (outcome_succeeded st, s1)
      else run h (poll_loop conf fuel (elapsed + sleepStep conf) st)
             (snd (handle h (time_Sleep (sleepStep conf)) s1))
    end.
Proof.
  intros Htime. cbn [poll_loop].
  destruct (Timeout conf <? elapsed) eqn:E; [lia |].
  rewrite run_bind.
  destruct (run h (Refresh conf) s) as [[[o st] [e |]] s1]; simpl.
  - reflexivity.
  - destruct (in_states st (Target conf)); simpl; [reflexivity |].
    destruct (handle h (time_Sleep (sleepStep conf)) s1); reflexivity.
Qed.

(** An attempt that would start after the timeout is not made. *)
Lemma run_poll_loop_late (fuel : nat) (elapsed : Duration)
  (last : string) (s : S) :
  Timeout conf < elapsed ->
  run h (poll_loop conf fuel elapsed last) s = (outcome_timeout last, s).
Proof.
  intros Htime. destruct fuel; cbn [poll_loop];
    destruct (Timeout conf <? elapsed) eqn:E; try lia; reflexivity.
Qed.

(** [k] attempts that each report a state to wait on bring the loop to
    attempt number [k]. *)
Lemma run_poll_loop_rounds (k : nat) :
  forall (fuel : nat) (elapsed : Duration) (last : string) (s : S),
    0 <= sleepStep conf ->
    elapsed + Z.of_nat k * sleepStep conf <= Timeout conf ->
    (forall j, (j < k)%nat ->
               continues h conf (round_state h conf j s) = true) ->
    exists last',
      run h (poll_loop conf (k + fuel) elapsed last) s
      = run h (poll_loop conf fuel
                 (elapsed + Z.of_nat k * sleepStep conf) last')
          (round_state h conf k s).
Proof.
  induction k as [| k IH]; intros fuel elapsed last s Hstep Htime Hcont.
  - exists last. simpl. f_equal. f_equal. lia.
  - assert (H0 : continues h conf s = true) by (apply (Hcont 0%nat); lia).
    destruct (IH fuel (elapsed + sleepStep conf)
                (snd (fst (fst (run h (Refresh conf) s))))
                (next_round h conf s) Hstep) as [last' Heq].
    + lia.
    + intros j Hj. apply (Hcont (Datatypes.S j)). lia.
    + exists last'.
      replace (Datatypes.S k + fuel)%nat with (Datatypes.S (k + fuel))
        by reflexivity.
      rewrite run_poll_loop_attempt by nia.
      cbn [round_state]. unfold next_round in *. unfold continues in H0.
      destruct (run h (Refresh conf) s) as [[[o st] [e |]] s1];
        simpl in H0, Heq |- *; [discriminate |].
      destruct (in_states st (Target conf)); [discriminate |].
      rewrite Heq. f_equal. f_equal. lia.
Qed.

(** When every attempt reports a state to wait on, the loop ends by
    timing out. *)
Lemma run_poll_loop_times_out (fuel : nat) :
  forall (elapsed : Duration) (last : string) (s : S),
    (forall j, (j < fuel)%nat ->
               continues h conf (round_state h conf j s) = true) ->
    exists last',
      fst (run h (poll_loop conf fuel elapsed last) s)
      = outcome_timeout last'.
Proof.
  induction fuel as [| fuel IH]; intros elapsed last s Hcont.
  - exists last. cbn [poll_loop].
    destruct (Timeout conf <? elapsed); reflexivity.
  - destruct (Z.ltb_spec (Timeout conf) elapsed) as [Hlate | Hintime].
    + exists last. rewrite run_poll_loop_late by assumption. reflexivity.
    + rewrite run_poll_loop_attempt by assumption.
      assert (H0 : continues h conf s = true) by (apply (Hcont 0%nat); lia).
      assert (IH' := IH (elapsed + sleepStep conf)
                       (snd (fst (fst (run h (Refresh conf) s))))
                       (next_round h conf s)
                       (fun j Hj =>
                          Hcont (Datatypes.S j)
                            (proj1 (Nat.succ_lt_mono j fuel) Hj))).
      unfold continues in H0. unfold next_round in IH'.
      destruct (run h (Refresh conf) s) as [[[o st] [e |]] s1];
        simpl in H0, IH'; [discriminate |].
      destruct (in_states st (Target conf)); [discriminate |].
      exact IH'.
Qed.

(** More fuel than the remaining time allows attempts changes nothing:
    the loop never ends for lack of fuel. *)
Lemma run_poll_loop_fuel (fuel : nat) :
  forall (extra : nat) (elapsed : Duration) (last : string) (s : S),
    0 < sleepStep conf ->
    (Timeout conf - elapsed) / sleepStep conf + 1 <= Z.of_nat fuel ->
    run h (poll_loop conf (fuel + extra) elapsed last) s
    = run h (poll_loop conf fuel elapsed last) s.
Proof.
  induction fuel as [| fuel IH]; intros extra elapsed last s Hstep Hfuel.
  - assert (Timeout conf < elapsed).
    { destruct (Z.lt_ge_cases (Timeout conf) elapsed) as [|Hge]; [assumption|].
      assert (0 <= (Timeout conf - elapsed) / sleepStep conf)
        by (apply Z.div_pos; lia).
      lia. }
    rewrite !run_poll_loop_late by assumption. reflexivity.
  - destruct (Z.ltb_spec (Timeout conf) elapsed) as [Hlate | Hintime].
    + rewrite !run_poll_loop_late by assumption. reflexivity.
    + replace (Datatypes.S fuel + extra)%nat
        with (Datatypes.S (fuel + extra)) by reflexivity.
      rewrite !run_poll_loop_attempt by assumption.
      destruct (run h (Refresh conf) s) as [[[o st] [e |]] s1];
        [reflexivity |].
      destruct (in_states st (Target conf)); [reflexivity |].
      apply IH; [assumption |].
      replace (Timeout conf - (elapsed + sleepStep conf))
        with (Timeout conf - elapsed + (-1) * sleepStep conf) by lia.
      rewrite Z.div_add by lia. lia.
Qed.

(** The attempt numbered [k] is within the fuel [attempts] provides. *)
Lemma attempts_cover (k : nat) :
  0 < sleepStep conf ->
  Delay conf + Z.of_nat k * sleepStep conf <= Timeout conf ->
  (k < attempts conf)%nat.
Proof.
  intros Hstep Htime. unfold attempts.
  assert (Z.of_nat k <= (Timeout conf - Delay conf) / sleepStep conf).
  { apply Z.div_le_lower_bound; lia. }
  lia.
Qed.

(** The fuel of [WaitForState] is enough: with more of it the loop does
    the same. *)
Lemma attempts_suffice (extra : nat) (last : string) (s : S) :
  0 < sleepStep conf ->
  run h (poll_loop conf (attempts conf + extra) (Delay conf) last) s
  = run h (poll_loop conf (attempts conf) (Delay conf) last) s.
Proof.
  intros Hstep. apply run_poll_loop_fuel; [assumption |].
  unfold attempts. lia.
Qed.

(** A valid request whose first [k] attempts each report a state to wait
    on reaches attempt number [k] with fuel left. *)
Lemma run_WaitForState_rounds (k : nat) (s : S) :
  PollRequest_valid conf = true ->
  0 < sleepStep conf ->
  Delay conf + Z.of_nat k * sleepStep conf <= Timeout conf ->
  (forall j, (j < k)%nat ->
     continues h conf (round_state h conf j (first_attempt h conf s)) = true) ->
  exists (fuel : nat) (last : string),
    run h (WaitForState conf) s
    = run h (poll_loop conf (Datatypes.S fuel)
               (Delay conf + Z.of_nat k * sleepStep conf) last)
        (round_state h conf k (first_attempt h conf s)).
Proof.
  intros Hvalid Hstep Htime Hcont.
  pose proof (attempts_cover k Hstep Htime) as Hk.
  destruct (run_poll_loop_rounds k (Datatypes.S (attempts conf - k - 1))
              (Delay conf) "" (first_attempt h conf s)) as [last Heq];
    [lia | assumption | assumption |].
  exists (attempts conf - k - 1)%nat, last.
  unfold WaitForState. rewrite Hvalid. rewrite run_bind, run_call.
  fold (first_attempt h conf s).
  replace (attempts conf) with (k + Datatypes.S (attempts conf - k - 1))%nat
    at 1 by lia.
  exact Heq.
Qed.

End Running.

(* ===================================================================== *)
(** ** The refresh closures and the poll                                  *)
(* ===================================================================== *)

Section Refresh.
Context {S : Type} (h : Remote S).

(** In delete mode a conflict is a state to wait on. *)
Lemma deleteConflict_continues (c : ServiceClient) (d : ResourceData)
  (s : S) :
  deleteConflict h c (d_Id d) s = true ->
  continues h (deleteStateConf c d) s = true.
Proof.
  unfold deleteConflict, continues. cbn [Refresh deleteStateConf Target].
  rewrite run_waitForNetworkDelete.
  destruct (handle h (networks_Get c (d_Id d)) s) as [[body | e] s1];
    [| discriminate].
  destruct (handle h (networks_Delete c (d_Id d)) s1) as [[e |] s2];
    [| discriminate].
  intros H409. destruct e; try discriminate. simpl in *.
  rewrite H409. reflexivity.
Qed.

End Refresh.

(* --------------------------------------------------------------------- *)
(** *** The handlers on the example cloud                                 *)
(* --------------------------------------------------------------------- *)

(** Delete of a network without ports: the poll deletes it, the id is
    cleared. *)
Example delete_on_example_cloud :
  let r := run Cloud.remote
             (@resourceNetworkingNetworkV2Delete Cloud.collaborators
                Cloud.net1_resource Cloud.config) Cloud.one_net in
  fst r = (None, SetId Cloud.net1_resource "")
  /\ Cloud.nets (snd r) = [].
Proof. split; vm_compute; reflexivity. Qed.

(** Delete of a network that still has ports: the poll times out and the
    handler wraps the error. *)
Example delete_busy_on_example_cloud :
  let r := run Cloud.remote
             (@resourceNetworkingNetworkV2Delete Cloud.collaborators
                Cloud.net1_resource Cloud.config) Cloud.one_busy_net in
  fst r
  = (Some (Errorf "Error deleting OpenStack Neutron Network: %s"
             [OtherError "timeout while waiting for state"]),
     Cloud.net1_resource)
  /\ snd r = Cloud.one_busy_net.
Proof. split; vm_compute; reflexivity. Qed.

(** Create of a plain network: it is built, becomes active during the
    poll, and the read fills in the fields. *)
Example create_on_example_cloud :
  let r := run Cloud.remote
             (@resourceNetworkingNetworkV2Create Cloud.collaborators
                Cloud.new_plain Cloud.config) Cloud.empty in
  fst (fst r) = None
  /\ d_Id (snd (fst r)) = "net-1"
  /\ Get_string (snd (fst r)) "admin_state_up" = "true"
  /\ Cloud.nets (snd r) = [Cloud.set_status "ACTIVE" Cloud.front].
Proof. repeat split; vm_compute; reflexivity. Qed.

(** C1. An invocation of the delete-mode refresh closure that gets a 404,
    from its Get or from its Delete, reports the state "DELETED" with a
    nil error.  And a poll configured by Delete ends in success with the
    final state "DELETED" when one of its attempts observes a 404,
    whatever number of earlier attempts reported a state to wait on. *)
Theorem waitForNetworkDelete_not_found :
  (forall (S : Type) (h : Remote S) (c : ServiceClient) (id : string)
          (s : S),
      observed404 h c id s = true ->
      let r := fst (run h (waitForNetworkDelete c id) s) in
      reported_state r = "DELETED" /\ reported_error r = None)
  /\
  (forall (S : Type) (h : Remote S) (c : ServiceClient) (d : ResourceData)
          (s : S) (k : nat),
      let conf := deleteStateConf c d in
      let s0 := first_attempt h conf s in
      Delay conf + Z.of_nat k * sleepStep conf <= Timeout conf ->
      (forall j, (j < k)%nat ->
         continues h conf (round_state h conf j s0) = true) ->
      observed404 h c (d_Id d) (round_state h conf k s0) = true ->
      fst (run h (WaitForState conf) s) = outcome_succeeded "DELETED").
Proof.
  split.
  - intros S h c id s H404. unfold observed404 in H404.
    rewrite run_waitForNetworkDelete.
    destruct (handle h (networks_Get c id) s) as [[body | e] s1].
    + destruct (handle h (networks_Delete c id) s1) as [[e |] s2];
        [| discriminate].
      simpl. rewrite H404. split; reflexivity.
    + rewrite H404. split; reflexivity.
  - intros S h c d s k conf s0 Htime Hcont H404.
    destruct (run_WaitForState_rounds h conf k s) as (fuel & last & Heq);
      try assumption; try reflexivity.
    rewrite Heq. fold s0.
    rewrite run_poll_loop_attempt by exact Htime.
    cbn [Refresh conf deleteStateConf Target].
    rewrite run_waitForNetworkDelete.
    unfold observed404 in H404.
    destruct (handle h (networks_Get c (d_Id d)) (round_state h conf k s0))
      as [[body | e] s1].
    + destruct (handle h (networks_Delete c (d_Id d)) s1) as [[e |] s2];
        [| discriminate].
      simpl. rewrite H404. reflexivity.
    + rewrite H404. reflexivity.
Qed.

(** The theorem on the example cloud: a Get on the empty cloud is
    answered with a 404, and the poll that deletes [net1] sees "ACTIVE"
    once and then the 404. *)
Lemma waitForNetworkDelete_not_found_witness :
  (let r := fst (run Cloud.remote
                   (waitForNetworkDelete Cloud.client "net-1") Cloud.empty) in
   reported_state r = "DELETED" /\ reported_error r = None)
  /\ fst (run Cloud.remote
            (WaitForState (deleteStateConf Cloud.client Cloud.net1_resource))
            Cloud.one_net)
     = outcome_succeeded "DELETED".
Proof.
  split.
  - apply (proj1 waitForNetworkDelete_not_found). reflexivity.
  - apply (proj2 waitForNetworkDelete_not_found _ Cloud.remote Cloud.client
             Cloud.net1_resource Cloud.one_net 1%nat).
    + vm_compute. discriminate.
    + intros j Hj. destruct j; [reflexivity | lia].
    + reflexivity.
Defined.

(** C2. An invocation of the delete-mode refresh closure whose Delete
    gets a 409 reports the pending state "ACTIVE" with a nil error.  And a
    poll configured by Delete whose every attempt gets a 409 ends with a
    timeout, not with a remote error. *)
Theorem waitForNetworkDelete_conflict :
  (forall (S : Type) (h : Remote S) (c : ServiceClient) (id : string)
          (s : S),
      deleteConflict h c id s = true ->
      let r := fst (run h (waitForNetworkDelete c id) s) in
      reported_state r = "ACTIVE" /\ reported_error r = None)
  /\
  (forall (S : Type) (h : Remote S) (c : ServiceClient) (d : ResourceData)
          (s : S),
      let conf := deleteStateConf c d in
      let s0 := first_attempt h conf s in
      (forall j, (j < attempts conf)%nat ->
         deleteConflict h c (d_Id d) (round_state h conf j s0) = true) ->
      let o := fst (run h (WaitForState conf) s) in
      err o = Some TimeoutError /\ succeeded o = false
      /\ forall e, err o <> Some (RemoteError e)).
Proof.
  split.
  - intros S h c id s H409. unfold deleteConflict in H409.
    rewrite run_waitForNetworkDelete.
    destruct (handle h (networks_Get c id) s) as [[body | e] s1];
      [| discriminate].
    destruct (handle h (networks_Delete c id) s1) as [[e |] s2];
      [| discriminate].
    destruct e; try discriminate. simpl in *. rewrite H409.
    split; reflexivity.
  - intros S h c d s conf s0 Hconflict o. subst o.
    unfold WaitForState.
    replace (PollRequest_valid conf) with true by reflexivity.
    rewrite run_bind, run_call. fold (first_attempt h conf s). fold s0.
    destruct (run_poll_loop_times_out h conf (attempts conf) (Delay conf)
                "" s0) as [last Hout].
    + intros j Hj. apply deleteConflict_continues. apply Hconflict, Hj.
    + rewrite Hout. repeat split. intros e. discriminate.
Qed.

(** The theorem on the example cloud, where [net1] still has ports. *)
Lemma waitForNetworkDelete_conflict_witness :
  (let r := fst (run Cloud.remote
                   (waitForNetworkDelete Cloud.client "net-1")
                   Cloud.one_busy_net) in
   reported_state r = "ACTIVE" /\ reported_error r = None)
  /\ (let o := fst (run Cloud.remote
                      (WaitForState
                         (deleteStateConf Cloud.client Cloud.net1_resource))
                      Cloud.one_busy_net) in
      err o = Some TimeoutError /\ succeeded o = false
      /\ forall e, err o <> Some (RemoteError e)).
Proof.
  split.
  - apply (proj1 waitForNetworkDelete_conflict). reflexivity.
  - apply (proj2 waitForNetworkDelete_conflict _ Cloud.remote Cloud.client
             Cloud.net1_resource Cloud.one_busy_net).
    intros j Hj. vm_compute in Hj.
    destruct j as [| [| j]]; [reflexivity | reflexivity | lia].
Defined.

(** C3. An error of the remote that is not given a special meaning
    reaches the poller unchanged: in create mode every error of the Get;
    in delete mode every error of the Get that is not a 404 and every
    error of the Delete that is neither a 404 nor a 409.  And a poll whose
    refresh returns an error ends at that attempt with exactly that error:
    the remote is left as that refresh left it, nothing is retried. *)
Theorem refresh_error_is_fatal :
  (forall (S : Type) (h : Remote S) (c : ServiceClient) (id : string)
          (s s' : S) (e : error),
      handle h (networks_Get c id) s = (Err e, s') ->
      run h (waitForNetworkActive c id) s = ((None, "", Some e), s'))
  /\
  (forall (S : Type) (h : Remote S) (c : ServiceClient) (id : string)
          (s s' : S) (e : error),
      handle h (networks_Get c id) s = (Err e, s') ->
      isErrDefault404 e = false ->
      run h (waitForNetworkDelete c id) s = ((None, "ACTIVE", Some e), s'))
  /\
  (forall (S : Type) (h : Remote S) (c : ServiceClient) (id : string)
          (s s1 s2 : S) (body : external.NetworkWithExt) (e : error),
      handle h (networks_Get c id) s = (Ok body, s1) ->
      handle h (networks_Delete c id) s1 = (Some e, s2) ->
      isErrDefault404 e = false ->
      isConflict409 e = false ->
      run h (waitForNetworkDelete c id) s
      = ((Some (external.Network body), "ACTIVE", Some e), s2))
  /\
  (forall (S : Type) (h : Remote S) (conf : StateChangeConf) (s : S)
          (k : nat) (e : error),
      let s0 := first_attempt h conf s in
      let r := run h (Refresh conf) (round_state h conf k s0) in
      PollRequest_valid conf = true ->
      0 < sleepStep conf ->
      Delay conf + Z.of_nat k * sleepStep conf <= Timeout conf ->
      (forall j, (j < k)%nat ->
         continues h conf (round_state h conf j s0) = true) ->
      reported_error (fst r) = Some e ->
      run h (WaitForState conf) s
      = (outcome_failed (reported_state (fst r)) e, snd r)).
Proof.
  split; [| split; [| split]].
  - intros S h c id s s' e Hget.
    rewrite run_waitForNetworkActive, Hget. reflexivity.
  - intros S h c id s s' e Hget H404.
    rewrite run_waitForNetworkDelete, Hget, H404. reflexivity.
  - intros S h c id s s1 s2 body e Hget Hdel H404 H409.
    rewrite run_waitForNetworkDelete, Hget, Hdel. simpl.
    rewrite H404, H409. reflexivity.
  - intros S h conf s k e s0 r Hvalid Hstep Htime Hcont Herr.
    destruct (run_WaitForState_rounds h conf k s Hvalid Hstep Htime Hcont)
      as (fuel & last & Heq).
    rewrite Heq. fold s0.
    rewrite run_poll_loop_attempt by exact Htime.
    subst r. unfold reported_error, reported_state in *.
    destruct (run h (Refresh conf) (round_state h conf k s0))
      as [[[o st] oe] s1].
    simpl in Herr. subst oe. reflexivity.
Qed.

(** The theorem on a cloud that does not answer and on a cloud that
    refuses every change. *)
Lemma refresh_error_is_fatal_witness :
  run Cloud.remote (waitForNetworkActive Cloud.client "net-1") Cloud.down
  = ((None, "", Some Cloud.unreachable), Cloud.down)
  /\ run Cloud.remote (waitForNetworkDelete Cloud.client "net-1") Cloud.down
     = ((None, "ACTIVE", Some Cloud.unreachable), Cloud.down)
  /\ run Cloud.remote (waitForNetworkDelete Cloud.client "net-1")
       Cloud.frozen
     = ((Some (external.Network Cloud.net1), "ACTIVE",
         Some Cloud.forbidden), Cloud.frozen)
  /\ run Cloud.remote
       (WaitForState (deleteStateConf Cloud.client Cloud.net1_resource))
       Cloud.frozen
     = (outcome_failed "ACTIVE" Cloud.forbidden, Cloud.frozen).
Proof.
  destruct refresh_error_is_fatal as (Hactive & Hget & Hdelete & Hpoll).
  split; [| split; [| split]].
  - apply Hactive. reflexivity.
  - apply Hget; reflexivity.
  - apply (Hdelete _ Cloud.remote Cloud.client "net-1" Cloud.frozen
             Cloud.frozen Cloud.frozen Cloud.net1 Cloud.forbidden);
      reflexivity.
  - apply (Hpoll _ Cloud.remote
             (deleteStateConf Cloud.client Cloud.net1_resource)
             Cloud.frozen 0%nat Cloud.forbidden).
    + reflexivity.
    + reflexivity.
    + vm_compute. discriminate.
    + intros j Hj. lia.
    + reflexivity.
Defined.

(** C4. After a successful Get the create-mode refresh closure reports
    "ACTIVE" for the remote statuses "DOWN" and "ACTIVE", and every other
    status as it is. *)
Theorem waitForNetworkActive_status
  (S : Type) (h : Remote S) (c : ServiceClient) (id : string) (s s' : S)
  (body : external.NetworkWithExt) :
  handle h (networks_Get c id) s = (Ok body, s') ->
  let status := networks.Status (external.Network body) in
  let r := fst (run h (waitForNetworkActive c id) s) in
  reported_error r = None
  /\ (status = "DOWN" \/ status = "ACTIVE" -> reported_state r = "ACTIVE")
  /\ (status <> "DOWN" -> status <> "ACTIVE" -> reported_state r = status).
Proof.
  intros Hget. cbn zeta.
  rewrite run_waitForNetworkActive, Hget. cbn zeta.
  generalize (networks.Status (external.Network body)) as status.
  intros status.
  destruct (String.eqb_spec status "DOWN") as [Hdown | Hdown];
    destruct (String.eqb_spec status "ACTIVE") as [Hact | Hact]; simpl;
    (split; [reflexivity | split]).
  all: try (intros _; reflexivity).
  all: try (intros H1 H2; congruence).
  intros [H1 | H1]; congruence.
Qed.

(** The theorem on the example cloud with a network under
    construction. *)
Lemma waitForNetworkActive_status_witness :
  let r := fst (run Cloud.remote (waitForNetworkActive Cloud.client "net-1")
                  Cloud.one_building_net) in
  reported_error r = None
  /\ ("BUILD" = "DOWN" \/ "BUILD" = "ACTIVE" -> reported_state r = "ACTIVE")
  /\ ("BUILD" <> "DOWN" -> "BUILD" <> "ACTIVE" -> reported_state r = "BUILD").
Proof.
  apply (waitForNetworkActive_status _ Cloud.remote Cloud.client "net-1"
           Cloud.one_building_net Cloud.one_building_net
           (Cloud.set_status "BUILD" Cloud.net1)).
  reflexivity.
Defined.

(** C5. An invocation of the delete-mode refresh closure that observes no
    404 reports the state "ACTIVE"; after a Delete that succeeded it
    reports "ACTIVE" with a nil error; and it reports "DELETED" exactly
    when that invocation observed a 404. *)
Theorem waitForNetworkDelete_states
  (S : Type) (h : Remote S) (c : ServiceClient) (id : string) (s : S) :
  let r := fst (run h (waitForNetworkDelete c id) s) in
  (observed404 h c id s = false -> reported_state r = "ACTIVE")
  /\ (forall body s1 s2,
         handle h (networks_Get c id) s = (Ok body, s1) ->
         handle h (networks_Delete c id) s1 = (None, s2) ->
         reported_state r = "ACTIVE" /\ reported_error r = None)
  /\ (reported_state r = "DELETED" <-> observed404 h c id s = true).
Proof.
  cbn zeta. rewrite run_waitForNetworkDelete.
  unfold observed404, reported_state, reported_error.
  split; [| split].
  - destruct (handle h (networks_Get c id) s) as [[body | e] s1];
      [destruct (handle h (networks_Delete c id) s1) as [[e |] s2] |];
      simpl; intros H404; try rewrite H404; try reflexivity.
    destruct (isConflict409 e); reflexivity.
  - intros body s1 s2 Hget Hdel. rewrite Hget. cbn zeta. rewrite Hdel.
    split; reflexivity.
  - destruct (handle h (networks_Get c id) s) as [[body | e] s1];
      [destruct (handle h (networks_Delete c id) s1) as [[e |] s2] |];
      simpl; try destruct (isErrDefault404 e); simpl;
      try destruct (isConflict409 e); simpl;
      split; intros Hyp; try reflexivity; discriminate.
Qed.

(** The theorem on the example cloud: the Delete of [net1] succeeds and
    the closure reports "ACTIVE". *)
Lemma waitForNetworkDelete_states_witness :
  let r := fst (run Cloud.remote (waitForNetworkDelete Cloud.client "net-1")
                  Cloud.one_net) in
  reported_state r = "ACTIVE" /\ reported_error r = None.
Proof.
  apply (proj1 (proj2 (waitForNetworkDelete_states _ Cloud.remote
                         Cloud.client "net-1" Cloud.one_net))
           Cloud.net1 Cloud.one_net Cloud.empty); reflexivity.
Defined.

(** C6, as stated, fails: the delete-mode refresh closure is not a pure
    query.  On a cloud that holds the network it issues a Delete request
    after its Get, and the network is gone afterwards. *)
Lemma refresh_purity_counterexample :
  ~ ReadOnly (waitForNetworkDelete Cloud.client "net-1")
  /\ trace Cloud.remote (waitForNetworkDelete Cloud.client "net-1")
       Cloud.one_net
     = [aCall (networks_Get Cloud.client "net-1");
        aCall (networks_Delete Cloud.client "net-1")]
  /\ Cloud.nets Cloud.one_net = [Cloud.net1]
  /\ Cloud.nets
       (snd (run Cloud.remote (waitForNetworkDelete Cloud.client "net-1")
               Cloud.one_net))
     = [].
Proof.
  split; [| split; [| split]]; try reflexivity.
  intros [_ Hk]. specialize (Hk (Ok Cloud.net1)).
  destruct Hk as [Hmut _]. discriminate Hmut.
Qed.

(** C6, amended.  The create-mode refresh closure is a pure query: its
    only request is a Get, and a remote whose state a Get does not change
    is left as it was.  The delete-mode refresh closure issues a Get and,
    whenever that Get succeeds, a Delete request; it issues no mutating
    request exactly when its Get fails. *)
Theorem refresh_purity :
  (forall (c : ServiceClient) (id : string),
      ReadOnly (waitForNetworkActive c id))
  /\
  (forall (S : Type) (h : Remote S) (c : ServiceClient) (id : string)
          (s : S),
      trace h (waitForNetworkActive c id) s = [aCall (networks_Get c id)]
      /\ ((forall c' id' s0, snd (handle h (networks_Get c' id') s0) = s0) ->
          snd (run h (waitForNetworkActive c id) s) = s))
  /\
  (forall (S : Type) (h : Remote S) (c : ServiceClient) (id : string)
          (s : S),
      trace h (waitForNetworkDelete c id) s
      = match handle h (networks_Get c id) s with
        | (Ok _, _) =>
          [aCall (networks_Get c id); aCall (networks_Delete c id)]
        | (Err _, _) => [aCall (networks_Get c id)]
        end)
  /\
  (forall (S : Type) (h : Remote S) (c : ServiceClient) (id : string)
          (s : S),
      existsb is_mutating (trace h (waitForNetworkDelete c id) s) = false
      <-> exists e s', handle h (networks_Get c id) s = (Err e, s')).
Proof.
  split; [| split; [| split]].
  - intros c id. unfold waitForNetworkActive, networks_Get_Extract. simpl.
    split; [reflexivity |].
    intros [body | e]; simpl; [| exact I].
    destruct (_ || _); exact I.
  - intros S h c id s. split; [apply trace_waitForNetworkActive |].
    intros Hget. specialize (Hget c id s).
    rewrite run_waitForNetworkActive.
    destruct (handle h (networks_Get c id) s) as [[body | e] s'];
      cbn zeta; [destruct (_ || _) |]; exact Hget.
  - intros S h c id s. apply trace_waitForNetworkDelete.
  - intros S h c id s. rewrite trace_waitForNetworkDelete.
    destruct (handle h (networks_Get c id) s) as [[body | e] s']; simpl.
    + split; [discriminate |]. intros (e & s'' & Heq). discriminate.
    + split; [| reflexivity]. intros _. exists e, s'. reflexivity.
Qed.

(** C7. The poll configurations built by Create and by Delete have the
    pending and target states the handlers name, and each satisfies the
    condition on a poll request: its target states are not empty and none
    of them is a pending state.  These are all the configurations the two
    handlers hand to the poller: a poller that refuses invalid
    configurations leaves both handlers as they are. *)
Theorem stateConf_valid
  (c : ServiceClient) (n : networks.Network) (d : ResourceData) :
  let create := createStateConf c n d in
  let delete := deleteStateConf c d in
  (Pending create = ["BUILD"] /\ Target create = ["ACTIVE"])
  /\ (Pending delete = ["ACTIVE"] /\ Target delete = ["DELETED"])
  /\ (Target create <> []
      /\ forall st, In st (Target create) -> ~ In st (Pending create))
  /\ (Target delete <> []
      /\ forall st, In st (Target delete) -> ~ In st (Pending delete))
  /\ PollRequest_valid create = true
  /\ PollRequest_valid delete = true
  /\ (forall (C : Collaborators) (meta : Config),
         @resourceNetworkingNetworkV2Create (with_checked_poller C) d meta
         = @resourceNetworkingNetworkV2Create C d meta
         /\ @resourceNetworkingNetworkV2Delete (with_checked_poller C) d meta
            = @resourceNetworkingNetworkV2Delete C d meta).
Proof.
  cbn zeta.
  split; [split; reflexivity |].
  split; [split; reflexivity |].
  split; [split; [discriminate |] |].
  { intros st [<- | []] [Heq | []]. discriminate. }
  split; [split; [discriminate |] |].
  { intros st [<- | []] [Heq | []]. discriminate. }
  split; [reflexivity |].
  split; [reflexivity |].
  intros C meta. split; reflexivity.
Qed.

(* ===================================================================== *)
(** ** The handlers                                                       *)
(* ===================================================================== *)

(** The error of a rejected string is the syntax error for that string. *)
Lemma strconv_ParseBool_error (str : string) (e : error) :
  strconv_ParseBool str = Err e -> e = NumError "ParseBool" str.
Proof.
  unfold strconv_ParseBool.
  destruct (_ || _); [discriminate |].
  destruct (_ || _); [discriminate |].
  intros Heq. inversion Heq. reflexivity.
Qed.

Lemma unparseable_inv (raw : string) :
  unparseable raw = true ->
  negb (raw =? "")%string = true
  /\ strconv_ParseBool raw = Err (NumError "ParseBool" raw).
Proof.
  unfold unparseable. intros Hbad.
  apply andb_prop in Hbad as [Hgiven Hparse]. split; [assumption |].
  destruct (strconv_ParseBool raw) as [b | e] eqn:E; [discriminate |].
  rewrite (strconv_ParseBool_error raw e E). reflexivity.
Qed.

(** Update on an input with a changed field that is not a boolean: the
    tag replacement when the tags have a change, then the return of an
    error. *)
Lemma Update_rejected `{Collaborators}
  (d : ResourceData) (meta : Config) (client : ServiceClient) :
  networkingV2Client meta (GetRegion d meta) = Ok client ->
  HasChange d "admin_state_up"
    && unparseable (Get_string d "admin_state_up") = true
  \/ HasChange d "shared" && unparseable (Get_string d "shared") = true ->
  resourceNetworkingNetworkV2Update d meta
  = (r <- (if HasChange d "tags" then
             r <- call (attributestags_ReplaceAll client "networks"
                          (d_Id d) (networkV2AttributesTags d)) ;;
             match r with
             | Err err =>
               Ret (Some (Errorf "Error updating Tags on Network: %s"
                            [err]))
             | Ok _ => Ret None
             end
           else Ret None) ;;
     match r with
     | Some e' => Ret (Some e', d)
     | None => Ret (Some (updateValidationError d), d)
     end).
Proof.
  intros Hclient Hbad.
  unfold resourceNetworkingNetworkV2Update, updateValidationError.
  rewrite Hclient. cbn zeta.
  destruct (HasChange d "admin_state_up"
            && unparseable (Get_string d "admin_state_up")) eqn:Hasu.
  - apply andb_prop in Hasu as [Hchange Hasu].
    apply unparseable_inv in Hasu as [Hgiven Hparse].
    rewrite Hchange, Hgiven, Hparse. reflexivity.
  - destruct Hbad as [Hbad | Hbad]; [discriminate |].
    apply andb_prop in Hbad as [Hchange Hbad].
    apply unparseable_inv in Hbad as [Hgiven Hparse].
    unfold unparseable in Hasu.
    destruct (HasChange d "admin_state_up");
      [destruct (negb (Get_string d "admin_state_up" =? "")%string);
       [destruct (strconv_ParseBool (Get_string d "admin_state_up"))
          as [asu | e]; [| discriminate] |] |];
      rewrite Hchange, Hgiven, Hparse; reflexivity.
Qed.

(** When the tags have a change, Update replaces them on the remote
    before it looks at [admin_state_up] and [shared]: with a rejected
    field it then returns the validation error if the replacement
    succeeded, and the error of the replacement otherwise. *)
Lemma Update_replaces_tags_first `{Collaborators}
  (d : ResourceData) (meta : Config) (client : ServiceClient)
  (S : Type) (h : Remote S) (s : S) :
  networkingV2Client meta (GetRegion d meta) = Ok client ->
  HasChange d "admin_state_up"
    && unparseable (Get_string d "admin_state_up") = true
  \/ HasChange d "shared" && unparseable (Get_string d "shared") = true ->
  HasChange d "tags" = true ->
  let p := resourceNetworkingNetworkV2Update d meta in
  let request :=
    attributestags_ReplaceAll client "networks" (d_Id d)
      (networkV2AttributesTags d) in
  trace h p s = [aCall request]
  /\ run h p s
     = ((Some match fst (handle h request s) with
              | Ok _ => updateValidationError d
              | Err err => Errorf "Error updating Tags on Network: %s" [err]
              end, d),
        snd (handle h request s)).
Proof.
  intros Hclient Hbad Htags. cbn zeta.
  rewrite (Update_rejected d meta client Hclient Hbad), Htags. simpl.
  destruct (handle h (attributestags_ReplaceAll client "networks"
                        (d_Id d) (networkV2AttributesTags d)) s)
    as [[tags | err] s']; simpl; split; reflexivity.
Qed.

(** On the example cloud: the tags of [net1] are replaced although the
    update is rejected for its [admin_state_up]. *)
Example update_replaces_tags_on_example_cloud :
  let r := run Cloud.remote
             (@resourceNetworkingNetworkV2Update Cloud.collaborators
                Cloud.changed_tags_bad_admin_state Cloud.config)
             Cloud.one_net in
  fst (fst r) = Some adminStateUpError
  /\ Cloud.nets Cloud.one_net = [Cloud.net1]
  /\ Cloud.nets (snd r) = [Cloud.set_tags ["blue"] Cloud.net1].
Proof. repeat split; vm_compute; reflexivity. Qed.

(** C8, as stated, fails in two ways.  Create on an input with an
    unparseable [admin_state_up] returns the client error, not a
    validation error, when no client can be built.  And Update does not
    check a field that has no change: it goes on to the update request
    and succeeds. *)
Lemma network_validation_counterexample :
  (unparseable (Get_string Cloud.new_bad_admin_state "admin_state_up") = true
   /\ @resourceNetworkingNetworkV2Create Cloud.collaborators
        Cloud.new_bad_admin_state Cloud.config_no_client
      = Ret (Some (Errorf "Error creating OpenStack networking client: %s"
                     [OtherError "no endpoint found"]),
             Cloud.new_bad_admin_state))
  /\
  (unparseable (Get_string Cloud.unchanged_bad_admin_state "admin_state_up")
   = true
   /\ existsb is_networks_Update
        (trace Cloud.remote
           (@resourceNetworkingNetworkV2Update Cloud.collaborators
              Cloud.unchanged_bad_admin_state Cloud.config)
           Cloud.one_net) = true
   /\ fst (fst (run Cloud.remote
                  (@resourceNetworkingNetworkV2Update Cloud.collaborators
                     Cloud.unchanged_bad_admin_state Cloud.config)
                  Cloud.one_net)) = None).
Proof.
  repeat split; vm_compute; reflexivity.
Qed.

(** C8, amended.  When the networking client is obtained: Create on an
    input whose [admin_state_up] or [shared] is given and is not a
    boolean returns the validation error of the first such field and
    issues no request at all.  Update applies the same check, before the
    update request, to each of the two fields that has a change: when
    such a field is not a boolean, Update returns an error, leaves the
    resource data as they are and never issues the update request, and
    with unchanged tags it returns the validation error without any
    request.  A field without a change is not checked: when neither field
    has a change, Update issues the update request. *)
Theorem network_validation `{Collaborators}
  (d : ResourceData) (meta : Config) (client : ServiceClient) :
  networkingV2Client meta (GetRegion d meta) = Ok client ->
  let asuRaw := Get_string d "admin_state_up" in
  let sharedRaw := Get_string d "shared" in
  let p := resourceNetworkingNetworkV2Update d meta in
  (unparseable asuRaw = true \/ unparseable sharedRaw = true ->
   resourceNetworkingNetworkV2Create d meta
   = Ret (Some (createValidationError d), d))
  /\
  (HasChange d "admin_state_up" && unparseable asuRaw = true
   \/ HasChange d "shared" && unparseable sharedRaw = true ->
   (HasChange d "tags" = false ->
    p = Ret (Some (updateValidationError d), d))
   /\
   (forall (S : Type) (h : Remote S) (s : S),
       existsb is_networks_Update (trace h p s) = false
       /\ (exists e, fst (fst (run h p s)) = Some e)
       /\ snd (fst (run h p s)) = d))
  /\
  (HasChange d "admin_state_up" = false ->
   HasChange d "shared" = false ->
   HasChange d "tags" = false ->
   forall (S : Type) (h : Remote S) (s : S),
     existsb is_networks_Update (trace h p s) = true).
Proof.
  intros Hclient asuRaw sharedRaw p. split; [| split].
  - intros Hbad.
    unfold resourceNetworkingNetworkV2Create, createValidationError.
    rewrite Hclient. cbn zeta. fold asuRaw. fold sharedRaw.
    destruct (unparseable asuRaw) eqn:Hasu.
    + apply unparseable_inv in Hasu as [Hgiven Hparse].
      rewrite Hgiven, Hparse. reflexivity.
    + destruct Hbad as [Hbad | Hbad]; [discriminate |].
      apply unparseable_inv in Hbad as [Hgiven Hparse].
      unfold unparseable in Hasu.
      destruct (negb (asuRaw =? "")%string);
        [destruct (strconv_ParseBool asuRaw) as [asu | e];
         [| discriminate] |];
        rewrite Hgiven, Hparse; reflexivity.
  - intros Hbad. subst p.
    rewrite (Update_rejected d meta client Hclient Hbad). split.
    + intros Htags. rewrite Htags. reflexivity.
    + intros S h s. destruct (HasChange d "tags"); simpl.
      * destruct (handle h (attributestags_ReplaceAll client "networks"
                              (d_Id d) (networkV2AttributesTags d)) s)
          as [[tags | err] s']; simpl; eauto.
      * eauto.
  - intros Hasu Hshared Htags S h s. subst p.
    unfold resourceNetworkingNetworkV2Update.
    rewrite Hclient, Hasu, Hshared, Htags. cbn zeta. simpl.
    destruct (if HasChange d "external" then Get_bool d "external"
              else false); simpl;
      match goal with
      | |- context [handle h ?c s] => destruct (handle h c s)
      end; reflexivity.
Qed.

(** The theorem at two inputs of the example cloud: a new network whose
    [shared] is "yes", and [net1] with [admin_state_up] changed to
    "maybe". *)
Lemma network_validation_witness :
  @resourceNetworkingNetworkV2Create Cloud.collaborators
    Cloud.new_bad_shared Cloud.config
  = Ret (Some (sharedError "yes"), Cloud.new_bad_shared)
  /\ @resourceNetworkingNetworkV2Update Cloud.collaborators
       Cloud.changed_bad_admin_state Cloud.config
     = Ret (Some adminStateUpError, Cloud.changed_bad_admin_state).
Proof.
  split.
  - apply (proj1 (@network_validation Cloud.collaborators
                    Cloud.new_bad_shared Cloud.config Cloud.client
                    eq_refl)).
    right. reflexivity.
  - apply (proj1 (proj2 (@network_validation Cloud.collaborators
                           Cloud.changed_bad_admin_state Cloud.config
                           Cloud.client eq_refl))).
    + left. reflexivity.
    + reflexivity.
Defined.

(** C9, as stated, fails: on a cloud without the tag extension, Create of
    a tagged network gets its network created, then returns the error of
    the tag replacement.  The resource id is not set and no read is
    made. *)
Lemma create_returns_read_counterexample :
  let p := @resourceNetworkingNetworkV2Create Cloud.collaborators
             Cloud.new_tagged Cloud.config in
  (exists n s1,
      create_answer Cloud.remote p Cloud.no_tags = Some (Ok n, s1)
      /\ networks.ID n = "net-1")
  /\ fst (fst (run Cloud.remote p Cloud.no_tags))
     = Some (Errorf "Error creating Tags on Network: %s" [Cloud.not_found])
  /\ d_Id (snd (fst (run Cloud.remote p Cloud.no_tags))) = ""
  /\ existsb is_networks_Get (trace Cloud.remote p Cloud.no_tags) = false.
Proof.
  cbn zeta. split; [| split; [| split]].
  - eexists. eexists. split; vm_compute; reflexivity.
  - vm_compute. reflexivity.
  - vm_compute. reflexivity.
  - vm_compute. reflexivity.
Qed.

(** What Create does once its create request has been answered with a
    network: with no tags, or after a successful tag replacement, the
    poll, the id and the read; after a failed tag replacement, the return
    of that error. *)
Lemma Create_after_create `{Collaborators}
  (S : Type) (h : Remote S) (d : ResourceData) (meta : Config)
  (client : ServiceClient) (s s1 : S) (n : networks.Network) :
  networkingV2Client meta (GetRegion d meta) = Ok client ->
  create_answer h (resourceNetworkingNetworkV2Create d meta) s
  = Some (Ok n, s1) ->
  let tags := networkV2AttributesTags d in
  let replace :=
    handle h (attributestags_ReplaceAll client "networks" (networks.ID n)
                tags) s1 in
  let s2 := if (0 <? length tags)%nat then snd replace else s1 in
  let s3 :=
    snd (run h (stateConf_WaitForState (createStateConf client n d)) s2) in
  (tags = [] \/ (exists replaced, fst replace = Ok replaced) ->
   run h (resourceNetworkingNetworkV2Create d meta) s
   = run h (resourceNetworkingNetworkV2Read (SetId d (networks.ID n)) meta)
       s3)
  /\
  (forall e,
      tags <> [] ->
      fst replace = Err e ->
      run h (resourceNetworkingNetworkV2Create d meta) s
      = ((Some (Errorf "Error creating Tags on Network: %s" [e]), d),
         snd replace)).
Proof.
  intros Hclient Hcreate tags replace s2 s3.
  unfold resourceNetworkingNetworkV2Create in *.
  rewrite Hclient in *. cbn zeta in *.
  destruct (if negb (Get_string d "admin_state_up" =? "")%string
            then _ else _) as [createOpts | e];
    [| discriminate Hcreate].
  destruct (if negb (Get_string d "shared" =? "")%string
            then _ else _) as [createOpts' | e];
    [| discriminate Hcreate].
  rewrite run_bind.
  assert (Hanswer :
    forall opts (k : result networks.Network -> Prog HandlerResult),
      create_answer h
        (r <- call (networks_Create client opts) ;; k r) s
      = Some (handle h (networks_Create client opts) s)).
  { intros opts k. simpl.
    destruct (handle h (networks_Create client opts) s). reflexivity. }
  assert (Hn :
    run h (if (0 <? length (resourceNetworkingNetworkV2Segments d))%nat
           then
             if Get_bool d "external"
             then call (networks_Create client
                          (external_CreateOptsExt
                             (provider_CreateOptsExt
                                (NetworkCreateOpts createOpts'
                                   (MapValueSpecs d))
                                (resourceNetworkingNetworkV2Segments d))
                             (Some (Get_bool d "external"))))
             else call (networks_Create client
                          (provider_CreateOptsExt
                             (NetworkCreateOpts createOpts'
                                (MapValueSpecs d))
                             (resourceNetworkingNetworkV2Segments d)))
           else
             if Get_bool d "external"
             then call (networks_Create client
                          (external_CreateOptsExt
                             (NetworkCreateOpts createOpts'
                                (MapValueSpecs d))
                             (Some (Get_bool d "external"))))
             else call (networks_Create client
                          (NetworkCreateOpts createOpts' (MapValueSpecs d))))
      s = (Ok n, s1)).
  { destruct (0 <? length (resourceNetworkingNetworkV2Segments d))%nat;
      destruct (Get_bool d "external");
      rewrite Hanswer in Hcreate; rewrite run_call; congruence. }
  rewrite Hn. cbn [fst snd]. rewrite run_bind.
  fold tags. subst s3 s2 replace.
  destruct (0 <? length tags)%nat eqn:Hlen.
  - rewrite run_bind, run_call.
    destruct (handle h (attributestags_ReplaceAll client "networks"
                          (networks.ID n) tags) s1) as [r s2].
    cbn [fst snd]. split.
    + intros [Hnil | [replaced Hreplaced]].
      * rewrite Hnil in Hlen. discriminate Hlen.
      * subst r. cbn [fst snd run]. rewrite run_bind. reflexivity.
    + intros e Hsome Hfailed. subst r. reflexivity.
  - split.
    + intros _. cbn [fst snd run]. rewrite run_bind. reflexivity.
    + intros e Hsome. destruct tags; [congruence | discriminate Hlen].
Qed.

(** C9, amended.  After the remote create request succeeded and, when
    tags are configured, the tag replacement succeeded as well, Create
    runs the poll, sets the resource id to the id of the created network
    and returns the result of Read, whatever the poller returned: an
    error or a timeout of the poll is discarded. *)
Theorem create_returns_read `{Collaborators}
  (S : Type) (h : Remote S) (d : ResourceData) (meta : Config)
  (client : ServiceClient) (s s1 : S) (n : networks.Network) :
  networkingV2Client meta (GetRegion d meta) = Ok client ->
  create_answer h (resourceNetworkingNetworkV2Create d meta) s
  = Some (Ok n, s1) ->
  let tags := networkV2AttributesTags d in
  let replace :=
    handle h (attributestags_ReplaceAll client "networks" (networks.ID n)
                tags) s1 in
  let s2 := if (0 <? length tags)%nat then snd replace else s1 in
  let s3 :=
    snd (run h (stateConf_WaitForState (createStateConf client n d)) s2) in
  tags = [] \/ (exists replaced, fst replace = Ok replaced) ->
  run h (resourceNetworkingNetworkV2Create d meta) s
  = run h (resourceNetworkingNetworkV2Read (SetId d (networks.ID n)) meta)
      s3.
Proof.
  intros Hclient Hcreate tags replace s2 s3 Htags.
  exact (proj1 (Create_after_create S h d meta client s s1 n Hclient
                  Hcreate) Htags).
Qed.

(** The theorem on the example cloud: a new network without tags is
    created, and Create returns what Read returns after the poll. *)
Lemma create_returns_read_witness :
  run Cloud.remote
    (@resourceNetworkingNetworkV2Create Cloud.collaborators Cloud.new_plain
       Cloud.config) Cloud.empty
  = run Cloud.remote
      (@resourceNetworkingNetworkV2Read Cloud.collaborators
         (SetId Cloud.new_plain "net-1") Cloud.config)
      (snd (run Cloud.remote
              (@stateConf_WaitForState Cloud.collaborators
                 (createStateConf Cloud.client
                    (external.Network Cloud.front) Cloud.new_plain))
              (Cloud.with_nets Cloud.empty [Cloud.front]))).
Proof.
  apply (@create_returns_read Cloud.collaborators _ Cloud.remote
           Cloud.new_plain Cloud.config Cloud.client Cloud.empty
           (Cloud.with_nets Cloud.empty [Cloud.front])
           (external.Network Cloud.front)).
  - reflexivity.
  - reflexivity.
  - left. reflexivity.
Defined.

(** C10. Update of a clustering profile is the read and nothing else:
    its only request is the Get of the profile, it issues no mutating
    request whatever the remote answers, a remote whose state a Get does
    not change is left as it was, and Update succeeds exactly when the
    read succeeds. *)
Theorem profile_update_is_read `{Collaborators}
  (d : ResourceData) (meta : Config) :
  let update := resourceClusteringProfileV1Update d meta in
  let read := resourceClusteringProfileV1Read d meta in
  update = read
  /\ ReadOnly update
  /\ (forall (S : Type) (h : Remote S) (s : S),
         trace h update s
         = match clusteringV1Client meta (GetRegion d meta) with
           | Ok clusteringClient =>
             [aCall (profiles_Get clusteringClient (d_Id d))]
           | Err _ => []
           end
         /\ existsb is_mutating (trace h update s) = false
         /\ ((forall c id s0, snd (handle h (profiles_Get c id) s0) = s0) ->
             snd (run h update s) = s)
         /\ (fst (fst (run h update s)) = None
             <-> fst (fst (run h read s)) = None)).
Proof.
  cbn zeta. split; [reflexivity |].
  unfold resourceClusteringProfileV1Update, resourceClusteringProfileV1Read.
  cbn zeta.
  destruct (clusteringV1Client meta (GetRegion d meta))
    as [clusteringClient | e]; simpl.
  - split.
    + split; [reflexivity |]. intros [s | err]; exact I.
    + intros S h s.
      split; [| split; [| split]].
      * destruct (handle h (profiles_Get clusteringClient (d_Id d)) s)
          as [[p | err] s']; reflexivity.
      * destruct (handle h (profiles_Get clusteringClient (d_Id d)) s)
          as [[p | err] s']; reflexivity.
      * intros Hget. specialize (Hget clusteringClient (d_Id d) s).
        destruct (handle h (profiles_Get clusteringClient (d_Id d)) s)
          as [[p | err] s']; exact Hget.
      * tauto.
  - split; [exact I |]. intros S h s. repeat split; tauto.
Qed.

(** The theorem on the example cloud, whose state no Get changes. *)
Lemma profile_update_is_read_witness :
  snd (run Cloud.remote
         (@resourceClusteringProfileV1Update Cloud.collaborators
            Cloud.net1_resource Cloud.config) Cloud.one_net)
  = Cloud.one_net.
Proof.
  apply (proj2 (proj2 (@profile_update_is_read Cloud.collaborators
                         Cloud.net1_resource Cloud.config))).
  intros c id s0. reflexivity.
Defined.

(* ===================================================================== *)
(** ** Further properties of the handlers                                 *)
(* ===================================================================== *)

(* --------------------------------------------------------------------- *)
(** *** Segments                                                          *)
(* --------------------------------------------------------------------- *)

(** X1. Reading back segments that the configuration holds as maps with
    the three keys of the schema gives exactly those segments, in order. *)
Theorem Segments_round_trip
  (d : ResourceData) (segments : list provider.Segment) :
  Get_list d "segments" = map (fun seg => VMap (segment_map seg)) segments ->
  resourceNetworkingNetworkV2Segments d = segments.
Proof.
  intros Hget. unfold resourceNetworkingNetworkV2Segments. cbn zeta.
  rewrite Hget. clear Hget.
  induction segments as [| [physnet type id] segments IH]; simpl.
  - reflexivity.
  - f_equal. exact IH.
Qed.

(** The theorem on the segmented network of the example cloud. *)
Lemma Segments_round_trip_witness :
  resourceNetworkingNetworkV2Segments Cloud.new_segmented
  = [{| provider.PhysicalNetwork := "physnet1";
        provider.NetworkType := "vlan";
        provider.SegmentationID := 42 |}].
Proof.
  apply (Segments_round_trip Cloud.new_segmented).
  reflexivity.
Defined.



(* --------------------------------------------------------------------- *)
(** *** No client                                                         *)
(* --------------------------------------------------------------------- *)

(** X3. When the networking client cannot be built, each of the four
    network handlers returns that error, wrapped, without issuing any
    request and with the resource data as they were. *)
Theorem network_handlers_without_client `{Collaborators}
  (d : ResourceData) (meta : Config) (e : error) :
  networkingV2Client meta (GetRegion d meta) = Err e ->
  let failed : Prog HandlerResult :=
    Ret (Some (Errorf "Error creating OpenStack networking client: %s" [e]),
         d) in
  resourceNetworkingNetworkV2Create d meta = failed
  /\ resourceNetworkingNetworkV2Read d meta = failed
  /\ resourceNetworkingNetworkV2Update d meta = failed
  /\ resourceNetworkingNetworkV2Delete d meta = failed.
Proof.
  intros Hclient. cbn zeta.
  unfold resourceNetworkingNetworkV2Create, resourceNetworkingNetworkV2Read,
    resourceNetworkingNetworkV2Update, resourceNetworkingNetworkV2Delete.
  rewrite Hclient. repeat split.
Qed.

(** The theorem on the configuration without an endpoint. *)
Lemma network_handlers_without_client_witness :
  @resourceNetworkingNetworkV2Delete Cloud.collaborators
    Cloud.net1_resource Cloud.config_no_client
  = Ret (Some (Errorf "Error creating OpenStack networking client: %s"
                 [OtherError "no endpoint found"]), Cloud.net1_resource).
Proof.
  apply (@network_handlers_without_client Cloud.collaborators
           Cloud.net1_resource Cloud.config_no_client
           (OtherError "no endpoint found")).
  reflexivity.
Defined.

(** X4. When the clustering client cannot be built, each of the four
    clustering-profile handlers returns that error, wrapped, without
    issuing any request and with the resource data as they were. *)
Theorem profile_handlers_without_client `{Collaborators}
  (d : ResourceData) (meta : Config) (e : error) :
  clusteringV1Client meta (GetRegion d meta) = Err e ->
  let failed : Prog HandlerResult :=
    Ret (Some (Errorf "Error creating OpenStack clustering client: %s" [e]),
         d) in
  resourceClusteringProfileV1Create d meta = failed
  /\ resourceClusteringProfileV1Read d meta = failed
  /\ resourceClusteringProfileV1Update d meta = failed
  /\ resourceClusteringProfileV1Delete d meta = failed.
Proof.
  intros Hclient. cbn zeta.
  unfold resourceClusteringProfileV1Update,
    resourceClusteringProfileV1Create, resourceClusteringProfileV1Read,
    resourceClusteringProfileV1Delete.
  rewrite Hclient. repeat split.
Qed.

(** The theorem on the configuration without an endpoint. *)
Lemma profile_handlers_without_client_witness :
  @resourceClusteringProfileV1Create Cloud.collaborators
    Cloud.new_plain Cloud.config_no_client
  = Ret (Some (Errorf "Error creating OpenStack clustering client: %s"
                 [OtherError "no endpoint found"]), Cloud.new_plain).
Proof.
  apply (@profile_handlers_without_client Cloud.collaborators
           Cloud.new_plain Cloud.config_no_client
           (OtherError "no endpoint found")).
  reflexivity.
Defined.

(* --------------------------------------------------------------------- *)
(** *** Read of a network                                                 *)
(* --------------------------------------------------------------------- *)

Lemma run_Read_found `{Collaborators}
  (S : Type) (h : Remote S) (d : ResourceData) (meta : Config)
  (client : ServiceClient) (s s' : S) (body : external.NetworkWithExt) :
  networkingV2Client meta (GetRegion d meta) = Ok client ->
  handle h (networks_Get client (d_Id d)) s = (Ok body, s') ->
  exists region : string,
    run h (resourceNetworkingNetworkV2Read d meta) s
    = ((None,
        let net := external.Network body in
        d_Set (d_Set (d_Set (d_Set (d_Set (d_Set (d_Set (d_Set (d_Set d
          "name" (VString (networks.Name net)))
          "description" (VString (networks.Description net)))
          "admin_state_up"
            (VString (strconv_FormatBool (networks.AdminStateUp net))))
          "shared" (VString (strconv_FormatBool (networks.Shared net))))
          "external" (VString (strconv_FormatBool (external.External body))))
          "tenant_id" (VString (networks.TenantID net)))
          "region" (VString region))
          "tags" (VList (map VString (networks.Tags net))))
          "availability_zone_hints"
            (VList (map VString (networks.AvailabilityZoneHints net)))),
       s').
Proof.
  intros Hclient Hget. eexists.
  unfold resourceNetworkingNetworkV2Read. rewrite Hclient. cbn zeta.
  simpl. rewrite Hget. reflexivity.
Qed.

(** X5. A Read that finds the network returns no error and changes
    nothing but the nine fields it writes: the id, the prior state, the
    timeouts and every other field stay as they were. *)
Theorem Read_found_frame `{Collaborators}
  (S : Type) (h : Remote S) (d : ResourceData) (meta : Config)
  (client : ServiceClient) (s s' : S) (body : external.NetworkWithExt) :
  networkingV2Client meta (GetRegion d meta) = Ok client ->
  handle h (networks_Get client (d_Id d)) s = (Ok body, s') ->
  let r := run h (resourceNetworkingNetworkV2Read d meta) s in
  let d' := snd (fst r) in
  fst (fst r) = None
  /\ snd r = s'
  /\ d_Id d' = d_Id d
  /\ d_state d' = d_state d
  /\ d_timeouts d' = d_timeouts d
  /\ forall key : string,
       ~ In key network_read_keys ->
       d_fields d' !! key = d_fields d !! key.
Proof.
  intros Hclient Hget.
  destruct (run_Read_found S h d meta client s s' body Hclient Hget)
    as [region Hrun].
  cbn zeta. rewrite Hrun. cbn [fst snd d_Set d_Id d_state d_timeouts
                                d_fields].
  repeat split.
  intros key Hkey. unfold network_read_keys in Hkey. simpl in Hkey.
  rewrite !lookup_insert_ne by (intros <-; tauto).
  reflexivity.
Qed.

(** The theorem on the example cloud: a field the read does not write
    keeps its value. *)
Lemma Read_found_frame_witness :
  let d := SetId Cloud.new_segmented "net-1" in
  let r := run Cloud.remote
             (@resourceNetworkingNetworkV2Read Cloud.collaborators d
                Cloud.config)
             (Cloud.with_nets Cloud.empty
                [Cloud.set_status "ACTIVE" Cloud.front]) in
  fst (fst r) = None
  /\ d_fields (snd (fst r)) !! "segments" = d_fields d !! "segments".
Proof.
  cbn zeta.
  destruct (@Read_found_frame Cloud.collaborators _ Cloud.remote
              (SetId Cloud.new_segmented "net-1") Cloud.config Cloud.client
              (Cloud.with_nets Cloud.empty
                 [Cloud.set_status "ACTIVE" Cloud.front])
              (Cloud.with_nets Cloud.empty
                 [Cloud.set_status "ACTIVE" Cloud.front])
              (Cloud.set_status "ACTIVE" Cloud.front) eq_refl eq_refl)
    as (Hnil & _ & _ & _ & _ & Hframe).
  split; [exact Hnil |]. apply Hframe.
  vm_compute. intuition discriminate.
Defined.

(** X6. After a Read that finds the network, the fields [name],
    [description] and [tenant_id] hold the remote values, and
    [admin_state_up] and [shared] hold strings that parse back to the
    remote booleans: neither field is one the validation of Create and
    Update rejects. *)
Theorem Read_found_values `{Collaborators}
  (S : Type) (h : Remote S) (d : ResourceData) (meta : Config)
  (client : ServiceClient) (s s' : S) (body : external.NetworkWithExt) :
  networkingV2Client meta (GetRegion d meta) = Ok client ->
  handle h (networks_Get client (d_Id d)) s = (Ok body, s') ->
  let d' := snd (fst (run h (resourceNetworkingNetworkV2Read d meta) s)) in
  let net := external.Network body in
  Get_string d' "name" = networks.Name net
  /\ Get_string d' "description" = networks.Description net
  /\ Get_string d' "tenant_id" = networks.TenantID net
  /\ strconv_ParseBool (Get_string d' "admin_state_up")
     = Ok (networks.AdminStateUp net)
  /\ strconv_ParseBool (Get_string d' "shared") = Ok (networks.Shared net)
  /\ unparseable (Get_string d' "admin_state_up") = false
  /\ unparseable (Get_string d' "shared") = false.
Proof.
  intros Hclient Hget.
  destruct (run_Read_found S h d meta client s s' body Hclient Hget)
    as [region Hrun].
  cbn zeta. rewrite Hrun. unfold unparseable, Get_string.
  cbn [fst snd d_Set d_fields].
  repeat first [rewrite lookup_insert_eq
               | rewrite lookup_insert_ne by discriminate].
  destruct (networks.AdminStateUp (external.Network body));
    destruct (networks.Shared (external.Network body));
    repeat split.
Qed.

(** The theorem on the example cloud. *)
Lemma Read_found_values_witness :
  let d' := snd (fst (run Cloud.remote
                        (@resourceNetworkingNetworkV2Read Cloud.collaborators
                           Cloud.net1_resource Cloud.config)
                        Cloud.one_net)) in
  Get_string d' "name" = "front"
  /\ Get_string d' "description" = ""
  /\ Get_string d' "tenant_id" = "t"
  /\ strconv_ParseBool (Get_string d' "admin_state_up") = Ok true
  /\ strconv_ParseBool (Get_string d' "shared") = Ok false
  /\ unparseable (Get_string d' "admin_state_up") = false
  /\ unparseable (Get_string d' "shared") = false.
Proof.
  apply (@Read_found_values Cloud.collaborators _ Cloud.remote
           Cloud.net1_resource Cloud.config Cloud.client Cloud.one_net
           Cloud.one_net Cloud.net1 eq_refl eq_refl).
Defined.

(** X7. Read of a network never changes the remote: its only request is
    the Get of the network, whatever the remote answers.  When that Get
    fails, Read writes no field and returns what [CheckDeleted] makes of
    the error. *)
Theorem Read_requests `{Collaborators} (d : ResourceData) (meta : Config) :
  ReadOnly (resourceNetworkingNetworkV2Read d meta)
  /\ forall (S : Type) (h : Remote S) (s : S),
       trace h (resourceNetworkingNetworkV2Read d meta) s
       = match networkingV2Client meta (GetRegion d meta) with
         | Ok client => [aCall (networks_Get client (d_Id d))]
         | Err _ => []
         end
       /\ forall client e s',
            networkingV2Client meta (GetRegion d meta) = Ok client ->
            handle h (networks_Get client (d_Id d)) s = (Err e, s') ->
            run h (resourceNetworkingNetworkV2Read d meta) s
            = (CheckDeleted d e "network", s').
Proof.
  unfold resourceNetworkingNetworkV2Read. cbn zeta.
  destruct (networkingV2Client meta (GetRegion d meta)) as [client | e0].
  - split.
    + simpl. split; [reflexivity |]. intros [body | e]; exact I.
    + intros S h s. split.
      * simpl. destruct (handle h (networks_Get client (d_Id d)) s)
          as [[body | e] s']; reflexivity.
      * intros client' e s' Hclient Hget. inversion Hclient. subst client'.
        simpl. rewrite Hget. reflexivity.
  - split; [exact I |]. intros S h s. split; [reflexivity |].
    intros client e s' Hclient. discriminate Hclient.
Qed.

(** The theorem on the empty example cloud: the network is gone and the
    example [CheckDeleted] clears the id. *)
Lemma Read_requests_witness :
  run Cloud.remote
    (@resourceNetworkingNetworkV2Read Cloud.collaborators
       Cloud.net1_resource Cloud.config) Cloud.empty
  = ((None, SetId Cloud.net1_resource ""), Cloud.empty).
Proof.
  apply (proj2 (proj2 (@Read_requests Cloud.collaborators
                         Cloud.net1_resource Cloud.config)
                  _ Cloud.remote Cloud.empty)
           Cloud.client Cloud.not_found Cloud.empty eq_refl eq_refl).
Defined.

(* --------------------------------------------------------------------- *)
(** *** Create of a network                                               *)
(* --------------------------------------------------------------------- *)

(** The first request of Create, by cases on the validation. *)
Lemma Create_first_request `{Collaborators}
  (d : ResourceData) (meta : Config) (client : ServiceClient) :
  networkingV2Client meta (GetRegion d meta) = Ok client ->
  let asuRaw := Get_string d "admin_state_up" in
  let sharedRaw := Get_string d "shared" in
  let segments := resourceNetworkingNetworkV2Segments d in
  let p := resourceNetworkingNetworkV2Create d meta in
  (unparseable asuRaw || unparseable sharedRaw = true
   /\ first_request p = None)
  \/
  (unparseable asuRaw || unparseable sharedRaw = false
   /\ exists opts : CreateOptsBuilder,
        first_request p = Some (aCall (networks_Create client opts))
        /\ networks.co_Name (sent_CreateOpts opts) = Get_string d "name"
        /\ networks.co_Description (sent_CreateOpts opts)
           = Get_string d "description"
        /\ networks.co_TenantID (sent_CreateOpts opts)
           = Get_string d "tenant_id"
        /\ networks.co_AvailabilityZoneHints (sent_CreateOpts opts)
           = resourceNetworkingAvailabilityZoneHintsV2 d
        /\ sent_ValueSpecs opts = MapValueSpecs d
        /\ networks.co_AdminStateUp (sent_CreateOpts opts)
           = optional_bool asuRaw
        /\ networks.co_Shared (sent_CreateOpts opts)
           = optional_bool sharedRaw
        /\ sent_Segments opts
           = (if (0 <? length segments)%nat then Some segments else None)
        /\ sent_External opts
           = (if Get_bool d "external" then Some true else None)).
Proof.
  intros Hclient. cbn zeta.
  unfold resourceNetworkingNetworkV2Create. rewrite Hclient. cbn zeta.
  unfold unparseable, optional_bool.
  destruct (Get_string d "admin_state_up" =? "")%string;
    [| destruct (strconv_ParseBool (Get_string d "admin_state_up"))];
    cbn [negb andb orb];
    try (left; split; reflexivity);
    (destruct (Get_string d "shared" =? "")%string;
     [| destruct (strconv_ParseBool (Get_string d "shared"))];
     cbn [negb andb orb];
     try (left; split; reflexivity));
    right; (split; [reflexivity |]);
    destruct (0 <? length (resourceNetworkingNetworkV2Segments d))%nat;
    destruct (Get_bool d "external");
    eexists; (split; [reflexivity |]); repeat split.
Qed.



(** X9. The create request carries the name, description, tenant id,
    availability zone hints and value specs of the configuration;
    [admin_state_up] and [shared] only when they are given, with the
    boolean they parse to; the provider extension with the segments only
    when there are segments; and the external extension only when
    [external] is true, so that the request never says "not external". *)
Theorem Create_request_content `{Collaborators}
  (d : ResourceData) (meta : Config) (client : ServiceClient)
  (opts : CreateOptsBuilder) :
  networkingV2Client meta (GetRegion d meta) = Ok client ->
  first_request (resourceNetworkingNetworkV2Create d meta)
  = Some (aCall (networks_Create client opts)) ->
  let sent := sent_CreateOpts opts in
  let segments := resourceNetworkingNetworkV2Segments d in
  networks.co_Name sent = Get_string d "name"
  /\ networks.co_Description sent = Get_string d "description"
  /\ networks.co_TenantID sent = Get_string d "tenant_id"
  /\ networks.co_AvailabilityZoneHints sent
     = resourceNetworkingAvailabilityZoneHintsV2 d
  /\ sent_ValueSpecs opts = MapValueSpecs d
  /\ networks.co_AdminStateUp sent
     = optional_bool (Get_string d "admin_state_up")
  /\ networks.co_Shared sent = optional_bool (Get_string d "shared")
  /\ sent_Segments opts = (if segments is [] then None else Some segments)
  /\ sent_External opts = (if Get_bool d "external" then Some true else None)
  /\ sent_External opts <> Some false.
Proof.
  intros Hclient Hfirst. cbn zeta.
  destruct (Create_first_request d meta client Hclient)
    as [[Hbad Hnone] | [Hgood (opts' & Hfirst' & Hcontent)]].
  - rewrite Hnone in Hfirst. discriminate Hfirst.
  - rewrite Hfirst' in Hfirst.
    assert (opts' = opts) as ->.
    { apply (f_equal (fun o => a ← o; create_request a)) in Hfirst.
      simpl in Hfirst. congruence. }
    destruct Hcontent as (? & ? & ? & ? & ? & ? & ? & Hsegments & Hexternal).
    repeat split; try assumption.
    + rewrite Hsegments.
      destruct (resourceNetworkingNetworkV2Segments d); reflexivity.
    + rewrite Hexternal. destruct (Get_bool d "external"); discriminate.
Qed.

(** The theorem on the segmented external network of the example
    cloud. *)
Lemma Create_request_content_witness :
  let sent := sent_CreateOpts Cloud.segmented_request in
  let segments := resourceNetworkingNetworkV2Segments Cloud.new_segmented in
  networks.co_Name sent = Get_string Cloud.new_segmented "name"
  /\ networks.co_Description sent
     = Get_string Cloud.new_segmented "description"
  /\ networks.co_TenantID sent = Get_string Cloud.new_segmented "tenant_id"
  /\ networks.co_AvailabilityZoneHints sent
     = @resourceNetworkingAvailabilityZoneHintsV2 Cloud.collaborators
         Cloud.new_segmented
  /\ sent_ValueSpecs Cloud.segmented_request
     = @MapValueSpecs Cloud.collaborators Cloud.new_segmented
  /\ networks.co_AdminStateUp sent
     = optional_bool (Get_string Cloud.new_segmented "admin_state_up")
  /\ networks.co_Shared sent
     = optional_bool (Get_string Cloud.new_segmented "shared")
  /\ sent_Segments Cloud.segmented_request
     = (if segments is [] then None else Some segments)
  /\ sent_External Cloud.segmented_request
     = (if Get_bool Cloud.new_segmented "external" then Some true else None)
  /\ sent_External Cloud.segmented_request <> Some false.
Proof.
  apply (@Create_request_content Cloud.collaborators Cloud.new_segmented
           Cloud.config Cloud.client Cloud.segmented_request eq_refl).
  reflexivity.
Defined.

(** X10. When the remote refuses the create request, Create returns that
    error, wrapped: nothing else is sent, the remote stays as the refusal
    left it, and the resource data, the id among them, are unchanged. *)
Theorem Create_refused `{Collaborators}
  (S : Type) (h : Remote S) (d : ResourceData) (meta : Config)
  (client : ServiceClient) (s s1 : S) (e : error) :
  networkingV2Client meta (GetRegion d meta) = Ok client ->
  create_answer h (resourceNetworkingNetworkV2Create d meta) s
  = Some (Err e, s1) ->
  run h (resourceNetworkingNetworkV2Create d meta) s
  = ((Some (Errorf "Error creating OpenStack Neutron network: %s" [e]), d),
     s1)
  /\ length (trace h (resourceNetworkingNetworkV2Create d meta) s) = 1%nat.
Proof.
  intros Hclient Hcreate.
  unfold resourceNetworkingNetworkV2Create in *.
  rewrite Hclient in *. cbn zeta in *.
  destruct (if negb (Get_string d "admin_state_up" =? "")%string
            then _ else _) as [createOpts | e0];
    [| discriminate Hcreate].
  destruct (if negb (Get_string d "shared" =? "")%string
            then _ else _) as [createOpts' | e0];
    [| discriminate Hcreate].
  destruct (0 <? length (resourceNetworkingNetworkV2Segments d))%nat;
    destruct (Get_bool d "external"); simpl in *;
    match goal with
    | |- context [handle h ?c s] =>
      destruct (handle h c s) as [r s1'] eqn:Hcall
    end;
    simpl in Hcreate; inversion Hcreate; subst; split; reflexivity.
Qed.

(** The theorem on the example cloud that refuses every change. *)
Lemma Create_refused_witness :
  run Cloud.remote
    (@resourceNetworkingNetworkV2Create Cloud.collaborators Cloud.new_plain
       Cloud.config) Cloud.frozen
  = ((Some (Errorf "Error creating OpenStack Neutron network: %s"
              [Cloud.forbidden]), Cloud.new_plain), Cloud.frozen)
  /\ length (trace Cloud.remote
               (@resourceNetworkingNetworkV2Create Cloud.collaborators
                  Cloud.new_plain Cloud.config) Cloud.frozen) = 1%nat.
Proof.
  apply (@Create_refused Cloud.collaborators _ Cloud.remote Cloud.new_plain
           Cloud.config Cloud.client Cloud.frozen Cloud.frozen
           Cloud.forbidden eq_refl).
  reflexivity.
Defined.

(** X11. When the network has been created and the replacement of its
    tags fails, Create returns the error of the replacement and leaves
    the resource data unchanged: the id of the network that now exists on
    the remote is not recorded. *)
Theorem Create_tags_refused `{Collaborators}
  (S : Type) (h : Remote S) (d : ResourceData) (meta : Config)
  (client : ServiceClient) (s s1 : S) (n : networks.Network) (e : error) :
  networkingV2Client meta (GetRegion d meta) = Ok client ->
  create_answer h (resourceNetworkingNetworkV2Create d meta) s
  = Some (Ok n, s1) ->
  let replace :=
    handle h (attributestags_ReplaceAll client "networks" (networks.ID n)
                (networkV2AttributesTags d)) s1 in
  networkV2AttributesTags d <> [] ->
  fst replace = Err e ->
  let r := run h (resourceNetworkingNetworkV2Create d meta) s in
  fst (fst r) = Some (Errorf "Error creating Tags on Network: %s" [e])
  /\ snd (fst r) = d
  /\ snd r = snd replace.
Proof.
  intros Hclient Hcreate replace Htags Hfailed. cbn zeta.
  rewrite (proj2 (Create_after_create S h d meta client s s1 n Hclient
                    Hcreate) e Htags Hfailed).
  repeat split.
Qed.

(** The theorem on the example cloud without the tag extension. *)
Lemma Create_tags_refused_witness :
  let r := run Cloud.remote
             (@resourceNetworkingNetworkV2Create Cloud.collaborators
                Cloud.new_tagged Cloud.config) Cloud.no_tags in
  fst (fst r)
  = Some (Errorf "Error creating Tags on Network: %s" [Cloud.not_found])
  /\ snd (fst r) = Cloud.new_tagged
  /\ snd r = Cloud.with_nets Cloud.no_tags [Cloud.front].
Proof.
  apply (@Create_tags_refused Cloud.collaborators _ Cloud.remote
           Cloud.new_tagged Cloud.config Cloud.client Cloud.no_tags
           (Cloud.with_nets Cloud.no_tags [Cloud.front])
           (external.Network Cloud.front) Cloud.not_found eq_refl eq_refl).
  - discriminate.
  - reflexivity.
Defined.

Lemma trace_Read `{Collaborators}
  (S : Type) (h : Remote S) (d : ResourceData) (meta : Config) (s : S) :
  trace h (resourceNetworkingNetworkV2Read d meta) s
  = match networkingV2Client meta (GetRegion d meta) with
    | Ok client => [aCall (networks_Get client (d_Id d))]
    | Err _ => []
    end.
Proof.
  unfold resourceNetworkingNetworkV2Read. cbn zeta.
  destruct (networkingV2Client meta (GetRegion d meta)) as [client | e];
    [| reflexivity].
  simpl. destruct (handle h (networks_Get client (d_Id d)) s)
    as [[body | e] s']; reflexivity.
Qed.

(** X12. Create never reports success without having sent the create
    request and, after it, read the network back. *)
Theorem Create_success_requests `{Collaborators}
  (S : Type) (h : Remote S) (d : ResourceData) (meta : Config) (s : S) :
  fst (fst (run h (resourceNetworkingNetworkV2Create d meta) s)) = None ->
  let tr := trace h (resourceNetworkingNetworkV2Create d meta) s in
  (exists a, head tr = Some a /\ is_networks_Create a = true)
  /\ (exists a, last tr = Some a /\ is_networks_Get a = true).
Proof.
  intros Hnone. cbn zeta.
  unfold resourceNetworkingNetworkV2Create in *.
  destruct (networkingV2Client meta (GetRegion d meta)) as [client | e0];
    [| discriminate Hnone].
  cbn zeta in *.
  destruct (if negb (Get_string d "admin_state_up" =? "")%string
            then _ else _) as [createOpts | e0];
    [| discriminate Hnone].
  destruct (if negb (Get_string d "shared" =? "")%string
            then _ else _) as [createOpts' | e0];
    [| discriminate Hnone].
  rewrite run_bind in Hnone. rewrite trace_bind.
  set (create := if (0 <? length (resourceNetworkingNetworkV2Segments d))%nat
                 then _ else _) in *.
  assert (Hcreate : exists opts,
             trace h create s = [aCall (networks_Create client opts)]).
  { subst create.
    destruct (0 <? length (resourceNetworkingNetworkV2Segments d))%nat;
      destruct (Get_bool d "external"); simpl;
      match goal with
      | |- context [handle h ?c s] => destruct (handle h c s)
      end; eauto. }
  destruct Hcreate as [opts Hcreate]. rewrite Hcreate.
  split; [eexists; split; reflexivity |].
  destruct (run h create s) as [[n | e0] s1]; [| discriminate Hnone].
  cbn [fst snd] in *.
  rewrite run_bind in Hnone. rewrite trace_bind.
  set (tags := if (0 <? length (networkV2AttributesTags d))%nat
               then _ else _) in *.
  destruct (run h tags s1) as [[e0 |] s2]; [discriminate Hnone |].
  cbn [fst snd] in *.
  rewrite run_bind in Hnone. rewrite trace_bind.
  set (poll := stateConf_WaitForState _) in *.
  destruct (run h poll s2) as [polled s3]. cbn [fst snd] in *.
  rewrite trace_Read.
  unfold resourceNetworkingNetworkV2Read in Hnone.
  destruct (networkingV2Client meta
              (GetRegion (SetId d (networks.ID n)) meta))
    as [client' | e0]; [| discriminate Hnone].
  eexists. split; [rewrite !app_assoc; apply last_snoc | reflexivity].
Qed.

(** The theorem on the example cloud. *)
Lemma Create_success_requests_witness :
  let tr := trace Cloud.remote
              (@resourceNetworkingNetworkV2Create Cloud.collaborators
                 Cloud.new_plain Cloud.config) Cloud.empty in
  (exists a, head tr = Some a /\ is_networks_Create a = true)
  /\ (exists a, last tr = Some a /\ is_networks_Get a = true).
Proof.
  apply (@Create_success_requests Cloud.collaborators _ Cloud.remote
           Cloud.new_plain Cloud.config Cloud.empty).
  reflexivity.
Defined.

(* --------------------------------------------------------------------- *)
(** *** Update of a network                                               *)
(* --------------------------------------------------------------------- *)

(** X13. When the tags have a change, the first request of Update is the
    replacement of the tags, sent before [admin_state_up] and [shared]
    are looked at.  If the replacement fails, Update returns its error
    and sends nothing else.  If it succeeds and a changed field is then
    rejected, Update returns the validation error although the remote
    already has the new tags. *)
Theorem Update_tags_first `{Collaborators}
  (d : ResourceData) (meta : Config) (client : ServiceClient) :
  networkingV2Client meta (GetRegion d meta) = Ok client ->
  HasChange d "tags" = true ->
  let p := resourceNetworkingNetworkV2Update d meta in
  let request :=
    attributestags_ReplaceAll client "networks" (d_Id d)
      (networkV2AttributesTags d) in
  first_request p = Some (aCall request)
  /\ (forall (S : Type) (h : Remote S) (s : S) (e : error),
         fst (handle h request s) = Err e ->
         run h p s
         = ((Some (Errorf "Error updating Tags on Network: %s" [e]), d),
            snd (handle h request s))
         /\ trace h p s = [aCall request])
  /\ (forall (S : Type) (h : Remote S) (s : S) (replaced : list string),
         HasChange d "admin_state_up"
           && unparseable (Get_string d "admin_state_up") = true
         \/ HasChange d "shared"
              && unparseable (Get_string d "shared") = true ->
         fst (handle h request s) = Ok replaced ->
         run h p s
         = ((Some (updateValidationError d), d), snd (handle h request s))
         /\ trace h p s = [aCall request]).
Proof.
  intros Hclient Htags. cbn zeta. split; [| split].
  - unfold resourceNetworkingNetworkV2Update.
    rewrite Hclient, Htags. reflexivity.
  - intros S h s e Hfailed.
    unfold resourceNetworkingNetworkV2Update.
    rewrite Hclient, Htags. simpl.
    destruct (handle h (attributestags_ReplaceAll client "networks"
                          (d_Id d) (networkV2AttributesTags d)) s)
      as [r s']. simpl in Hfailed. subst r. split; reflexivity.
  - intros S h s replaced Hbad Hreplaced.
    rewrite (Update_rejected d meta client Hclient Hbad), Htags. simpl.
    destruct (handle h (attributestags_ReplaceAll client "networks"
                          (d_Id d) (networkV2AttributesTags d)) s)
      as [r s']. simpl in Hreplaced. subst r. split; reflexivity.
Qed.

(** The theorem on the example cloud: without the tag extension the
    update stops at the replacement; with it, the tags of [net1] are
    replaced and the update is rejected for its [admin_state_up]. *)
Lemma Update_tags_first_witness :
  let p := @resourceNetworkingNetworkV2Update Cloud.collaborators
             Cloud.changed_tags_bad_admin_state Cloud.config in
  fst (fst (run Cloud.remote p Cloud.no_tags))
  = Some (Errorf "Error updating Tags on Network: %s" [Cloud.not_found])
  /\ fst (fst (run Cloud.remote p Cloud.one_net)) = Some adminStateUpError
  /\ Cloud.nets (snd (run Cloud.remote p Cloud.one_net))
     = [Cloud.set_tags ["blue"] Cloud.net1].
Proof.
  destruct (@Update_tags_first Cloud.collaborators
              Cloud.changed_tags_bad_admin_state Cloud.config Cloud.client
              eq_refl eq_refl) as (_ & Hfailed & Hrejected).
  cbn zeta. split; [| split].
  - rewrite (proj1 (Hfailed _ Cloud.remote Cloud.no_tags Cloud.not_found
                      eq_refl)). reflexivity.
  - rewrite (proj1 (Hrejected _ Cloud.remote Cloud.one_net ["blue"]
                      (or_introl eq_refl) eq_refl)). reflexivity.
  - rewrite (proj1 (Hrejected _ Cloud.remote Cloud.one_net ["blue"]
                      (or_introl eq_refl) eq_refl)). reflexivity.
Defined.

(** X14. Update sends at most one update request.  It names a field only
    when that field has a change: the name, the description, and
    [admin_state_up] and [shared] with the boolean they parse to when they
    are given.  It carries the external extension only when [external]
    has changed to true: an update never says "not external", so a change
    of [external] to false is not sent. *)
Theorem Update_request_content `{Collaborators}
  (S : Type) (h : Remote S) (d : ResourceData) (meta : Config) (s : S) :
  let requests :=
    update_requests (trace h (resourceNetworkingNetworkV2Update d meta) s) in
  (length requests <= 1)%nat
  /\ forall opts : UpdateOptsBuilder,
       In opts requests ->
       let sent := sent_UpdateOpts opts in
       networks.uo_Name sent
       = (if HasChange d "name" then Get_string d "name" else "")
       /\ networks.uo_Description sent
          = (if HasChange d "description"
             then Some (Get_string d "description") else None)
       /\ networks.uo_AdminStateUp sent
          = (if HasChange d "admin_state_up"
             then optional_bool (Get_string d "admin_state_up") else None)
       /\ networks.uo_Shared sent
          = (if HasChange d "shared"
             then optional_bool (Get_string d "shared") else None)
       /\ sent_UpdateExternal opts
          = (if HasChange d "external" && Get_bool d "external"
             then Some true else None)
       /\ sent_UpdateExternal opts <> Some false.
Proof.
  cbn zeta. unfold resourceNetworkingNetworkV2Update.
  destruct (networkingV2Client meta (GetRegion d meta)) as [client | e0];
    [| simpl; split; [lia | intros opts []]].
  cbn zeta. rewrite trace_bind. unfold update_requests.
  rewrite omap_app.
  set (tags := if HasChange d "tags" then _ else _).
  set (read := resourceNetworkingNetworkV2Read d meta).
  assert (Htags : omap (fun a => match a with
                                 | aCall (networks_Update _ _ opts) =>
                                   Some opts
                                 | _ => None
                                 end) (trace h tags s) = []).
  { subst tags. destruct (HasChange d "tags"); [| reflexivity]. simpl.
    match goal with
    | |- context [handle h ?c s] => destruct (handle h c s) as [[] ?]
    end; reflexivity. }
  rewrite Htags. clear Htags.
  destruct (run h tags s) as [[e0 |] s1]; cbn [fst snd app];
    [simpl; split; [lia | intros opts []] |].
  unfold optional_bool.
  destruct (HasChange d "admin_state_up");
    [destruct (Get_string d "admin_state_up" =? "")%string;
     [| destruct (strconv_ParseBool (Get_string d "admin_state_up"))] |];
    cbn [negb]; try (simpl; split; [lia | intros opts []]);
    (destruct (HasChange d "shared");
     [destruct (Get_string d "shared" =? "")%string;
      [| destruct (strconv_ParseBool (Get_string d "shared"))] |];
     cbn [negb]; try (simpl; split; [lia | intros opts []]));
    destruct (HasChange d "name"); destruct (HasChange d "description");
    destruct (HasChange d "external");
    try destruct (Get_bool d "external");
    simpl;
    match goal with
    | |- context [handle h ?c s1] =>
      destruct (handle h c s1) as [[n | e0] s2]
    end;
    simpl; subst read; rewrite ?trace_Read;
    try destruct (networkingV2Client meta (GetRegion d meta));
    simpl; (split; [lia |]);
    intros opts [<- | []]; repeat split; discriminate.
Qed.

(** The theorem on the example cloud: [net1] renamed with [external]
    switched off sends the new name and no word about [external]. *)
Lemma Update_request_content_witness :
  let opts :=
    networks_UpdateOpts
      {| networks.uo_AdminStateUp := None; networks.uo_Name := "back";
         networks.uo_Description := None; networks.uo_Shared := None |} in
  In opts
    (update_requests
       (trace Cloud.remote
          (@resourceNetworkingNetworkV2Update Cloud.collaborators
             Cloud.renamed_internal Cloud.config) Cloud.one_net))
  /\ HasChange Cloud.renamed_internal "external" = true
  /\ sent_UpdateExternal opts = None.
Proof.
  cbn zeta.
  assert (Hin :
    In (networks_UpdateOpts
          {| networks.uo_AdminStateUp := None; networks.uo_Name := "back";
             networks.uo_Description := None; networks.uo_Shared := None |})
      (update_requests
         (trace Cloud.remote
            (@resourceNetworkingNetworkV2Update Cloud.collaborators
               Cloud.renamed_internal Cloud.config) Cloud.one_net))).
  { left. reflexivity. }
  split; [exact Hin | split; [reflexivity |]].
  destruct (proj2 (@Update_request_content Cloud.collaborators _
                     Cloud.remote Cloud.renamed_internal Cloud.config
                     Cloud.one_net) _ Hin)
    as (_ & _ & _ & _ & Hexternal & _).
  exact Hexternal.
Defined.

(** X15. Update never reports success without having sent the update
    request and, after it, read the network back. *)
Theorem Update_success_requests `{Collaborators}
  (S : Type) (h : Remote S) (d : ResourceData) (meta : Config) (s : S) :
  fst (fst (run h (resourceNetworkingNetworkV2Update d meta) s)) = None ->
  let tr := trace h (resourceNetworkingNetworkV2Update d meta) s in
  existsb is_networks_Update tr = true
  /\ (exists a, last tr = Some a /\ is_networks_Get a = true).
Proof.
  intros Hnone. cbn zeta.
  unfold resourceNetworkingNetworkV2Update in *.
  destruct (networkingV2Client meta (GetRegion d meta)) as [client | e0]
    eqn:Hclient; [| discriminate Hnone].
  cbn zeta in *.
  rewrite run_bind in Hnone. rewrite trace_bind.
  set (tags := if HasChange d "tags" then _ else _) in *.
  destruct (run h tags s) as [[e0 |] s1]; [discriminate Hnone |].
  cbn [fst snd] in *.
  destruct (if HasChange d "admin_state_up" then _ else _)
    as [updateOpts | e0]; [| discriminate Hnone].
  destruct (if HasChange d "shared" then _ else _)
    as [updateOpts' | e0]; [| discriminate Hnone].
  rewrite run_bind in Hnone. rewrite trace_bind.
  set (update := if (if HasChange d "external" then Get_bool d "external"
                     else false) then _ else _) in *.
  assert (Hupdate : exists opts,
             trace h update s1
             = [aCall (networks_Update client (d_Id d) opts)]).
  { subst update.
    destruct (if HasChange d "external" then Get_bool d "external"
              else false); simpl;
      match goal with
      | |- context [handle h ?c s1] => destruct (handle h c s1)
      end; eauto. }
  destruct Hupdate as [opts Hupdate]. rewrite Hupdate.
  destruct (run h update s1) as [[n | e0] s2]; [| discriminate Hnone].
  cbn [fst snd] in *. rewrite trace_Read, Hclient. split.
  - rewrite !existsb_app. simpl. rewrite orb_true_r. reflexivity.
  - eexists. split; [rewrite !app_assoc; apply last_snoc | reflexivity].
Qed.

(** The theorem on the example cloud. *)
Lemma Update_success_requests_witness :
  let tr := trace Cloud.remote
              (@resourceNetworkingNetworkV2Update Cloud.collaborators
                 Cloud.renamed_internal Cloud.config) Cloud.one_net in
  existsb is_networks_Update tr = true
  /\ (exists a, last tr = Some a /\ is_networks_Get a = true).
Proof.
  apply (@Update_success_requests Cloud.collaborators _ Cloud.remote
           Cloud.renamed_internal Cloud.config Cloud.one_net).
  reflexivity.
Defined.

(* --------------------------------------------------------------------- *)
(** *** Delete of a network                                               *)
(* --------------------------------------------------------------------- *)

(** X16. With a networking client, Delete sends nothing of its own: its
    requests are those of the poll on the Delete configuration.  It
    returns no error and clears the id exactly when the poller returns no
    error; otherwise it returns the error of the poller, wrapped, and
    keeps the resource data, the id among them, as they were. *)
Theorem Delete_follows_poll `{Collaborators}
  (S : Type) (h : Remote S) (d : ResourceData) (meta : Config)
  (client : ServiceClient) (s : S) :
  networkingV2Client meta (GetRegion d meta) = Ok client ->
  let poll := stateConf_WaitForState (deleteStateConf client d) in
  let r := run h (resourceNetworkingNetworkV2Delete d meta) s in
  trace h (resourceNetworkingNetworkV2Delete d meta) s = trace h poll s
  /\ snd r = snd (run h poll s)
  /\ (fst (run h poll s) = None -> fst r = (None, SetId d ""))
  /\ (forall e,
         fst (run h poll s) = Some e ->
         fst r
         = (Some (Errorf "Error deleting OpenStack Neutron Network: %s" [e]),
            d))
  /\ (fst (fst r) = None <-> fst (run h poll s) = None).
Proof.
  intros Hclient. cbn zeta.
  unfold resourceNetworkingNetworkV2Delete. rewrite Hclient. cbn zeta.
  rewrite trace_bind, run_bind.
  destruct (run h (stateConf_WaitForState (deleteStateConf client d)) s)
    as [[e |] s']; cbn [fst snd run trace].
  - rewrite app_nil_r. repeat split; try discriminate.
    intros e' He'. inversion He'. reflexivity.
  - rewrite app_nil_r. repeat split; discriminate.
Qed.

(** The theorem on the example cloud, whose poller is the modelled one:
    the network with ports stays, and so does the id. *)
Lemma Delete_follows_poll_witness :
  let r := run Cloud.remote
             (@resourceNetworkingNetworkV2Delete Cloud.collaborators
                Cloud.net1_resource Cloud.config) Cloud.one_busy_net in
  fst r
  = (Some (Errorf "Error deleting OpenStack Neutron Network: %s"
             [OtherError "timeout while waiting for state"]),
     Cloud.net1_resource).
Proof.
  apply (@Delete_follows_poll Cloud.collaborators _ Cloud.remote
           Cloud.net1_resource Cloud.config Cloud.client Cloud.one_busy_net
           eq_refl).
  reflexivity.
Defined.

(* --------------------------------------------------------------------- *)
(** *** The refresh closures against the poll configurations             *)
(* --------------------------------------------------------------------- *)

(** X17. In the poll configured by Create, a refresh that finds the
    network reports a target state exactly for the remote statuses "DOWN"
    and "ACTIVE", and a pending state exactly for "BUILD": any other
    status, "ERROR" for one, is reported as a state the configuration
    lists neither as pending nor as target. *)
Theorem create_refresh_states
  (S : Type) (h : Remote S) (c : ServiceClient) (n : networks.Network)
  (d : ResourceData) (s s' : S) (body : external.NetworkWithExt) :
  handle h (networks_Get c (networks.ID n)) s = (Ok body, s') ->
  let conf := createStateConf c n d in
  let status := networks.Status (external.Network body) in
  let st := reported_state (fst (run h (Refresh conf) s)) in
  (in_states st (Target conf) = true
   <-> status = "DOWN" \/ status = "ACTIVE")
  /\ (in_states st (Pending conf) = true <-> status = "BUILD")
  /\ (status <> "DOWN" -> status <> "ACTIVE" -> status <> "BUILD" ->
      in_states st (Target conf) = false
      /\ in_states st (Pending conf) = false).
Proof.
  intros Hget. cbn zeta. cbn [Refresh Target Pending createStateConf].
  rewrite run_waitForNetworkActive, Hget. cbn zeta.
  generalize (networks.Status (external.Network body)) as status.
  intros status. unfold in_states, reported_state.
  destruct (String.eqb_spec status "DOWN") as [-> | Hdown];
    [simpl; intuition discriminate |].
  destruct (String.eqb_spec status "ACTIVE") as [-> | Hactive];
    [simpl; intuition discriminate |].
  cbn [orb fst snd existsb].
  destruct (String.eqb_spec status "BUILD") as [-> | Hbuild];
    [simpl; intuition discriminate |].
  destruct (String.eqb_spec status "ACTIVE"); [contradiction |].
  simpl. intuition discriminate.
Qed.

(** The theorem on the example cloud with a network under
    construction. *)
Lemma create_refresh_states_witness :
  let conf := createStateConf Cloud.client (external.Network Cloud.front)
                Cloud.new_plain in
  let st := reported_state
              (fst (run Cloud.remote (Refresh conf)
                      (Cloud.with_nets Cloud.empty [Cloud.front]))) in
  in_states st (Pending conf) = true.
Proof.
  cbn zeta.
  apply (proj1 (proj2 (create_refresh_states _ Cloud.remote Cloud.client
                         (external.Network Cloud.front) Cloud.new_plain
                         (Cloud.with_nets Cloud.empty [Cloud.front])
                         (Cloud.with_nets Cloud.empty [Cloud.front])
                         Cloud.front eq_refl))).
  reflexivity.
Defined.

(** X18. In the poll configured by Delete, every refresh reports a state
    the configuration lists: the target "DELETED" exactly when the
    invocation observed a 404, the pending "ACTIVE" otherwise, also when
    it returns an error. *)
Theorem delete_refresh_states
  (S : Type) (h : Remote S) (c : ServiceClient) (d : ResourceData) (s : S) :
  let conf := deleteStateConf c d in
  let r := fst (run h (Refresh conf) s) in
  in_states (reported_state r) (Target conf) = observed404 h c (d_Id d) s
  /\ in_states (reported_state r) (Pending conf)
     = negb (observed404 h c (d_Id d) s)
  /\ (reported_error r <> None ->
      in_states (reported_state r) (Pending conf) = true).
Proof.
  cbn zeta. cbn [Refresh Target Pending deleteStateConf].
  rewrite run_waitForNetworkDelete. unfold observed404, reported_state,
    reported_error.
  destruct (handle h (networks_Get c (d_Id d)) s) as [[body | e] s1];
    [destruct (handle h (networks_Delete c (d_Id d)) s1) as [[e |] s2] |];
    cbn zeta; try destruct (isErrDefault404 e);
    try destruct (isConflict409 e); simpl; repeat split;
    intros Herr; congruence.
Qed.

(* --------------------------------------------------------------------- *)
(** *** Create of a clustering profile                                    *)
(* --------------------------------------------------------------------- *)

(** X19. With a clustering client, the first request of Create is the
    create request for a profile with the configured name and spec
    properties, always of type os.nova.server, version 1.0.  If the remote
    refuses it, Create returns that error, wrapped, sends nothing else and
    leaves the resource data unchanged.  If the remote answers with a
    profile, Create returns what Read returns on the resource data with
    the id of that profile, and its requests are the create request
    followed by those of that Read. *)
Theorem profile_Create_then_read `{Collaborators}
  (d : ResourceData) (meta : Config) (client : ServiceClient) :
  clusteringV1Client meta (GetRegion d meta) = Ok client ->
  let p := resourceClusteringProfileV1Create d meta in
  exists opts : profiles.CreateOpts,
    first_request p = Some (aCall (profiles_Create client opts))
    /\ profiles.co_Name opts = Get_string d "name"
    /\ profiles.Type_ (profiles.co_Spec opts) = "os.nova.server"
    /\ profiles.Version (profiles.co_Spec opts) = "1.0"
    /\ profiles.Properties (profiles.co_Spec opts) = Get_map d "spec"
    /\ forall (S : Type) (h : Remote S) (s s1 : S),
         (forall e,
             handle h (profiles_Create client opts) s = (Err e, s1) ->
             run h p s
             = ((Some (Errorf
                         "Error creating openstack_clustering_profile_v1: %s"
                         [e]), d), s1)
             /\ trace h p s = [aCall (profiles_Create client opts)])
         /\ (forall created,
                handle h (profiles_Create client opts) s
                = (Ok created, s1) ->
                let d' := SetId d (profiles.ID created) in
                run h p s = run h (resourceClusteringProfileV1Read d' meta) s1
                /\ trace h p s
                   = aCall (profiles_Create client opts)
                     :: trace h (resourceClusteringProfileV1Read d' meta) s1).
Proof.
  intros Hclient. cbn zeta.
  unfold resourceClusteringProfileV1Create. rewrite Hclient. cbn zeta.
  eexists. split; [reflexivity |].
  split; [reflexivity |]. split; [reflexivity |].
  split; [reflexivity |]. split; [reflexivity |].
  intros S h s s1. split.
  - intros e Hcall. simpl. rewrite Hcall. split; reflexivity.
  - intros created Hcall. simpl. rewrite Hcall. split; reflexivity.
Qed.

(** The theorem on the example cloud, which serves no profiles. *)
Lemma profile_Create_then_read_witness :
  exists opts : profiles.CreateOpts,
    profiles.Type_ (profiles.co_Spec opts) = "os.nova.server"
    /\ run Cloud.remote
         (@resourceClusteringProfileV1Create Cloud.collaborators
            Cloud.new_plain Cloud.config) Cloud.empty
       = ((Some (Errorf "Error creating openstack_clustering_profile_v1: %s"
                   [Cloud.not_found]), Cloud.new_plain), Cloud.empty).
Proof.
  destruct (@profile_Create_then_read Cloud.collaborators Cloud.new_plain
              Cloud.config Cloud.client eq_refl)
    as (opts & _ & _ & Htype & _ & _ & Hrun).
  exists opts. split; [exact Htype |].
  apply (proj1 (Hrun _ Cloud.remote Cloud.empty Cloud.empty)
           Cloud.not_found).
  reflexivity.
Defined.
